(** * RODONG-FUZZ: the loopback fuzzer of [y.py]

    A shallow embedding of the class [LoopbackFuzzer] and of the library
    calls it relies on, together with the properties its specification
    states about it.

    Conventions of the embedding.
    - A Python [str] is a Rocq [string]; the strings the fuzzer builds are
      ASCII, and one character of a [string] stands for one code point
      below 256.
    - A Python [bytes] value is a [list Z] whose elements lie in [0, 256).
    - A Python [int] is a [Z]; [len] of a sequence is a [nat].
    - A Python [dict] with string keys is a [gmap string _]; a Python list
      is a [list].
    - The outside world (random source, HTTP peer, file system, clock,
      keyboard) is an explicit oracle argument; what the program does to it
      is recorded as an explicit trace of events.
    - Exceptions come from the calls that leave the program: the HTTP
      request, the file writes, the sleep, the prompt and the creation of
      the folder.  Console output and the string and dictionary operations
      in between are taken not to raise, and the user interrupt is taken
      to be delivered while one of these calls blocks.  A run in which the
      interrupt arrives elsewhere (during a [print], or inside an [except]
      clause, from where it would leave [fuzz_server]) is outside the
      model: a statement below about an interrupted run is a statement
      about an interrupt delivered during one of these calls.
    - A file event of the trace stands for a write that ran to completion.
      A write that fails or is interrupted leaves no event; the file that
      [open(path, 'w')] has created or truncated before the failure is not
      recorded.  The trace tells which writes completed, not which files
      exist afterwards.
    - [new_fuzzer] is the object the constructor of the class builds;
      [init] is the constructor with its effects, the creation of the
      [curl] folder included. *)

From Stdlib Require Import ZArith Lia QArith Ascii String.
From stdpp Require Import gmap strings list fin_maps pretty sorting.

Local Open Scope Z_scope.

(** ** Python string primitives *)

Module PyStr.

(** [s.replace(old, new)] for one-character [old] and [new]. *)
Fixpoint replace (old new : ascii) (s : string) : string :=
  match s with
  | EmptyString => EmptyString
  | String c rest =>
      String (if Ascii.eqb c old then new else c) (replace old new rest)
  end.

(** [c * n] for a one-character string [c]. *)
Fixpoint repeat_char (c : ascii) (n : nat) : string :=
  match n with
  | O => EmptyString
  | S n' => String c (repeat_char c n')
  end.

(** [s.split(sep)] for a one-character separator: the fields between the
    occurrences of [sep], never an empty list. *)
Fixpoint split (sep : ascii) (s : string) : list string :=
  match s with
  | EmptyString => [EmptyString]
  | String c rest =>
      if Ascii.eqb c sep then EmptyString :: split sep rest
      else match split sep rest with
           | [] => [String c EmptyString]
           | field :: fields => String c field :: fields
           end
  end.

(** [s.count(c)] for a one-character string [c]. *)
Fixpoint count (c : ascii) (s : string) : nat :=
  match s with
  | EmptyString => O
  | String d rest => ((if Ascii.eqb d c then 1 else 0) + count c rest)%nat
  end.

(** [str(n)] for an [int]. *)
Definition str (n : Z) : string := pretty n.

(** [int(s)] restricted to what the fuzzer's slots need: a non-empty run of
    ASCII digits, read in base ten.  Anything else is rejected ([None]
    stands for [ValueError]). *)
Definition digit_value (c : ascii) : option Z :=
  let n := Z.of_N (N_of_ascii c) in
  if (48 <=? n) && (n <=? 57) then Some (n - 48) else None.

Fixpoint int_digits (acc : Z) (s : string) : option Z :=
  match s with
  | EmptyString => Some acc
  | String c rest =>
      match digit_value c with
      | Some d => int_digits (10 * acc + d) rest
      | None => None
      end
  end.

Definition int (s : string) : option Z :=
  match s with
  | EmptyString => None
  | _ => int_digits 0 s
  end.

(** [format(n, "06d")]: sign, then the digits padded with zeros on the left
    up to a total width of six characters. *)
Definition format_06d (n : Z) : string :=
  let sign := if n <? 0 then "-"%string else ""%string in
  let digits := str (Z.abs n) in
  let fill := (6 - String.length sign - String.length digits)%nat in
  sign +:+ repeat_char "0" fill +:+ digits.

(** [s.encode()]: UTF-8.  Code points below 128 are one byte; the other
    code points a [string] can hold (128 to 255) take two. *)
Definition utf8_char (c : ascii) : list Z :=
  let n := Z.of_N (N_of_ascii c) in
  if n <? 128 then [n]
  else [Z.lor 192 (n ≫ 6); Z.lor 128 (Z.land n 63)].

Fixpoint encode (s : string) : list Z :=
  match s with
  | EmptyString => []
  | String c rest => utf8_char c ++ encode rest
  end.

Definition is_byte (b : Z) : Prop := 0 <= b < 256.

End PyStr.

(** ** The [base64] module of the Python standard library (RFC 4648, §4) *)

Module Base64.

Definition alphabet : string :=
  "ABCDEFGHIJKLMNOPQRSTUVWXYZabcdefghijklmnopqrstuvwxyz0123456789+/".

Definition pad : ascii := "="%char.

(** The character of a six-bit group. *)
Definition b64_char (n : Z) : ascii :=
  default pad (String.get (Z.to_nat n) alphabet).

(** The six-bit group of a character of the alphabet. *)
Fixpoint index_from (k : Z) (c : ascii) (tbl : string) : option Z :=
  match tbl with
  | EmptyString => None
  | String d rest => if Ascii.eqb c d then Some k else index_from (k + 1) c rest
  end.

Definition b64_index (c : ascii) : option Z := index_from 0 c alphabet.

(** [base64.b64encode(bs).decode()]: three bytes become four characters;
    a final group of one or two bytes is completed with [=]. *)
Fixpoint b64encode (bs : list Z) : string :=
  match bs with
  | [] => EmptyString
  | [b1] =>
      String (b64_char (b1 ≫ 2))
        (String (b64_char (Z.land b1 3 ≪ 4))
           (String pad (String pad EmptyString)))
  | [b1; b2] =>
      String (b64_char (b1 ≫ 2))
        (String (b64_char (Z.lor (Z.land b1 3 ≪ 4) (b2 ≫ 4)))
           (String (b64_char (Z.land b2 15 ≪ 2))
              (String pad EmptyString)))
  | b1 :: b2 :: b3 :: rest =>
      String (b64_char (b1 ≫ 2))
        (String (b64_char (Z.lor (Z.land b1 3 ≪ 4) (b2 ≫ 4)))
           (String (b64_char (Z.lor (Z.land b2 15 ≪ 2) (b3 ≫ 6)))
              (String (b64_char (Z.land b3 63))
                 (b64encode rest))))
  end.

(** [base64.b64decode(s)] on well-formed text: four characters become
    three bytes, padding is accepted in the last group only.  [None]
    stands for [binascii.Error]. *)
Fixpoint b64decode (s : string) : option (list Z) :=
  match s with
  | EmptyString => Some []
  | String c1 (String c2 (String c3 (String c4 rest))) =>
      s1 ← b64_index c1;
      s2 ← b64_index c2;
      let b1 := Z.lor (s1 ≪ 2) (s2 ≫ 4) in
      if Ascii.eqb c3 pad then
        if Ascii.eqb c4 pad && String.eqb rest EmptyString
        then Some [b1] else None
      else
        s3 ← b64_index c3;
        let b2 := Z.lor (Z.land s2 15 ≪ 4) (s3 ≫ 2) in
        if Ascii.eqb c4 pad then
          if String.eqb rest EmptyString then Some [b1; b2] else None
        else
          s4 ← b64_index c4;
          let b3 := Z.lor (Z.land s3 3 ≪ 6) s4 in
          tl ← b64decode rest;
          Some (b1 :: b2 :: b3 :: tl)
  | _ => None
  end.

(** The six-bit groups. *)
Definition is_sextet (n : Z) : Prop := 0 <= n < 64.

(** The check that the alphabet is one-to-one on a group and does not map
    it to the padding character, as a computation. *)
Definition sextet_table_ok (k : nat) : bool :=
  let n := Z.of_nat k in
  bool_decide (b64_index (b64_char n) = Some n)
  && negb (Ascii.eqb (b64_char n) pad).

End Base64.

(** ** The [random] module: what [choice] and [shuffle] do with a source
       of bounded random numbers *)

Section Random.

Variable rng : Type.

(** [randbelow n g]: the generator's [_randbelow(n)], a number and the next
    generator state. *)
Variable randbelow : nat -> rng -> nat * rng.

(** [random.choice(seq)]: [seq[randbelow(len(seq))]]; [None] stands for
    [IndexError]. *)
Definition choice {A : Type} (seq : list A) (g : rng) : option (A * rng) :=
  let '(k, g') := randbelow (length seq) g in
  x ← seq !! k;
  Some (x, g').

(** [x[i], x[j] = x[j], x[i]]. *)
Definition swap {A : Type} (i j : nat) (x : list A) : option (list A) :=
  xi ← x !! i;
  xj ← x !! j;
  Some (<[j := xi]> (<[i := xj]> x)).

(** The loop of [random.shuffle(x)]:
    [for i in reversed(range(1, len(x))): j = randbelow(i + 1); swap]. *)
Fixpoint shuffle_from {A : Type} (i : nat) (x : list A) (g : rng)
  : option (list A * rng) :=
  match i with
  | O => Some (x, g)
  | S i' =>
      let '(j, g') := randbelow (S i) g in
      x' ← swap i j x;
      shuffle_from i' x' g'
  end.

Definition shuffle {A : Type} (x : list A) (g : rng) : option (list A * rng) :=
  shuffle_from (length x - 1) x g.

(** *** [LoopbackFuzzer.generate_random_patterns] *)

(** [values = [""] + [str(i) for i in range(32)]]. *)
Definition values : list string :=
  [EmptyString] ++ map (fun i : nat => PyStr.str (Z.of_nat i)) (seq 0 32).

(** The truth value of [self.max_patterns]: [None] and [0] are false. *)
Definition truthy (max_patterns : option Z) : bool :=
  match max_patterns with
  | None => false
  | Some n => negb (n =? 0)
  end.

Definition total_patterns (max_patterns : option Z) : Z :=
  if truthy max_patterns then default 0 max_patterns else 33 ^ 4.

(** [for count in range(...)]: four choices, one pattern appended. *)
Fixpoint generate_loop (count : nat) (patterns : list string) (g : rng)
  : option (list string * rng) :=
  match count with
  | O => Some (patterns, g)
  | S count' =>
      '(pos1, g1) ← choice values g;
      '(pos2, g2) ← choice values g1;
      '(pos3, g3) ← choice values g2;
      '(pos4, g4) ← choice values g3;
      let pattern := pos1 +:+ "@" +:+ pos2 +:+ "@" +:+ pos3 +:+ "@" +:+ pos4 in
      generate_loop count' (patterns ++ [pattern]) g4
  end.

(** The list the method returns; [range(n)] is empty for [n <= 0]. *)
Definition random_patterns (max_patterns : option Z) (g : rng)
  : option (list string * rng) :=
  '(patterns, g') ← generate_loop (Z.to_nat (total_patterns max_patterns)) [] g;
  shuffle patterns g'.

End Random.

(** ** Data of a run *)

(** The values a ResultRecord holds. *)
Inductive value :=
  | VStr (s : string)
  | VInt (n : Z)
  | VNone.

(** A ResultRecord is a [dict] with string keys. *)
Abbreviation record := (gmap string value).

Definition dict (items : list (string * value)) : record := list_to_map items.

(** ['key' in r]. *)
Definition has_key (key : string) (r : record) : bool :=
  bool_decide (is_Some (r !! key)).

(** What the fuzzer reads of a [requests.Response]. *)
Record response := {
  status_code : Z;
  content : list Z;
  headers : list (string * string);
  text : string
}.

(** The attributes [__init__] stores in [self] and never changes. *)
Record fuzzer := {
  base_url : string;
  delay : Q;
  log_file : string;
  max_patterns : option Z;
  curl_folder : string
}.

(** [LoopbackFuzzer(base_url, delay=0.01, log_file="fuzzer_log.json",
    max_patterns=None)]. *)
Definition default_delay : Q := 1 # 100.

Definition new_fuzzer (url : string) (d : Q) (log : string)
    (cap : option Z) : fuzzer :=
  {| base_url := url; delay := d; log_file := log; max_patterns := cap;
     curl_folder := "curl" |}.

(** ** Effects *)

(** What the program does to the outside world, in order.  [WriteFile] and
    [DumpJson] are writes that ran to completion. *)
Inductive event :=
  | Print (line : string)
  | HttpGet (url : string) (timeout : Z) (allow_redirects : bool)
  | WriteFile (path : string) (body : string)
  | DumpJson (path : string) (doc : list record)
  | Sleep (seconds : Q).

(** The mutable part: [self.results] and the effects so far. *)
Record state := {
  results : list record;
  trace : list event
}.

Definition initial : state := {| results := []; trace := [] |}.

(** The exception classes the fuzzer tells apart.  [RequestException] is a
    subclass of [Exception]; [KeyboardInterrupt] is not. *)
Inductive exn :=
  | RequestException (e : string)
  | KeyboardInterrupt
  | OtherException (e : string).

Definition is_Exception (x : exn) : bool :=
  match x with
  | KeyboardInterrupt => false
  | _ => true
  end.

(** [str(e)]. *)
Definition exn_str (x : exn) : string :=
  match x with
  | RequestException e => e
  | KeyboardInterrupt => EmptyString
  | OtherException e => e
  end.

(** A computation over [state] that returns or raises. *)
Definition M (A : Type) : Type := state -> (exn + A) * state.

Definition ret {A : Type} (a : A) : M A := fun s => (inr a, s).

Definition raise {A : Type} (x : exn) : M A := fun s => (inl x, s).

Definition bind {A B : Type} (m : M A) (k : A -> M B) : M B :=
  fun s =>
    match m s with
    | (inr a, s') => k a s'
    | (inl x, s') => (inl x, s')
    end.

Notation "x <- m ;; k" := (bind m (fun x => k))
  (at level 100, m at next level, right associativity).
Notation "m ;; k" := (bind m (fun _ => k))
  (at level 100, right associativity).

(** [try: body except ...: handler]: [handler x] is [None] when no
    [except] clause matches [x], which then propagates. *)
Definition try_except {A : Type} (body : M A) (handler : exn -> option (M A))
  : M A :=
  fun s =>
    match body s with
    | (inr a, s') => (inr a, s')
    | (inl x, s') =>
        match handler x with
        | Some h => h s'
        | None => (inl x, s')
        end
    end.

Definition emit (e : event) : M unit :=
  fun s => (inr tt, {| results := results s; trace := trace s ++ [e] |}).

Definition print (line : string) : M unit := emit (Print line).

(** [self.results.append(r)]. *)
Definition append_result (r : record) : M unit :=
  fun s => (inr tt, {| results := results s ++ [r]; trace := trace s |}).

Definition get_results : M (list record) := fun s => (inr (results s), s).

(** ** The outside world *)

(** What [requests.get] does: a response, a transport failure
    ([RequestException]), a user interrupt while waiting, or any other
    exception. *)
Inductive get_result :=
  | Responded (r : response)
  | TransportFailure (e : string)
  | GetInterrupted
  | GetCrashed (e : string).

(** What a file write or a sleep does: it completes, it fails with an
    [Exception], or the user interrupts it.  A write that does not
    complete may leave a partial file behind. *)
Inductive io_result :=
  | Completed
  | Failed (e : string)
  | Interrupted.

(** The world during one iteration of the driver loop.  [saved_at] and
    [recorded_at] are what [datetime.now().isoformat()] returns in
    [save_curl_response] and when the record is built. *)
Record iteration_world := {
  on_get : get_result;
  on_save : io_result;
  on_sleep : io_result;
  saved_at : string;
  recorded_at : string
}.

(** The world at the end of the run: the log write, and the rendering of
    [end_time - start_time]. *)
Record report_world := {
  on_dump : io_result;
  duration : string
}.

Definition io (r : io_result) (e : event) : M unit :=
  match r with
  | Completed => emit e
  | Failed msg => raise (OtherException msg)
  | Interrupted => raise KeyboardInterrupt
  end.

(** [requests.get(url, timeout=5, allow_redirects=False)]. *)
Definition requests_get (w : iteration_world) (url : string) (timeout : Z)
    (allow_redirects : bool) : M response :=
  emit (HttpGet url timeout allow_redirects) ;;
  match on_get w with
  | Responded r => ret r
  | TransportFailure e => raise (RequestException e)
  | GetInterrupted => raise KeyboardInterrupt
  | GetCrashed e => raise (OtherException e)
  end.

(** [time.sleep(seconds)]. *)
Definition time_sleep (w : iteration_world) (seconds : Q) : M unit :=
  io (on_sleep w) (Sleep seconds).

(** ** [os.path] (POSIX) *)

Definition starts_with_slash (s : string) : bool :=
  match s with
  | String c _ => Ascii.eqb c "/"
  | EmptyString => false
  end.

Fixpoint ends_with_slash (s : string) : bool :=
  match s with
  | EmptyString => false
  | String c EmptyString => Ascii.eqb c "/"
  | String _ rest => ends_with_slash rest
  end.

(** [os.path.join(a, b)]. *)
Definition path_join (a b : string) : string :=
  if starts_with_slash b then b
  else if String.eqb a EmptyString || ends_with_slash a then a +:+ b
  else a +:+ "/" +:+ b.

(** [os.path.basename(p)]: what follows the last [/]. *)
Fixpoint basename (p : string) : string :=
  match p with
  | EmptyString => EmptyString
  | String c rest =>
      if existsb (Ascii.eqb "/") (list_ascii_of_string rest) then basename rest
      else if Ascii.eqb c "/" then rest
      else p
  end.

(** ** [LoopbackFuzzer.save_curl_response] *)

Definition nl : string := String "010" EmptyString.

Definition safe_pattern (pattern : string) : string :=
  PyStr.replace "/" "_" (PyStr.replace "@" "_" pattern).

Definition artifact_filename (response_count : Z) (pattern : string) : string :=
  "response_" +:+ PyStr.format_06d response_count +:+ "_"
    +:+ safe_pattern pattern +:+ ".txt".

Definition header_lines (hs : list (string * string)) : string :=
  foldr (fun h acc => fst h +:+ ": " +:+ snd h +:+ nl +:+ acc) EmptyString hs.

Definition artifact_text (self : fuzzer) (w : iteration_world)
    (pattern encoded_pattern : string) (r : response) : string :=
  "URL: " +:+ base_url self +:+ encoded_pattern +:+ nl
  +:+ "Pattern: " +:+ pattern +:+ nl
  +:+ "Base64: " +:+ encoded_pattern +:+ nl
  +:+ "Timestamp: " +:+ saved_at w +:+ nl
  +:+ "Status Code: " +:+ PyStr.str (status_code r) +:+ nl
  +:+ "Content Length: " +:+ PyStr.str (Z.of_nat (length (content r)))
  +:+ " bytes" +:+ nl
  +:+ PyStr.repeat_char "-" 80 +:+ nl
  +:+ "HEADERS:" +:+ nl
  +:+ header_lines (headers r)
  +:+ PyStr.repeat_char "-" 80 +:+ nl
  +:+ "CONTENT:" +:+ nl
  +:+ text r.

(** Returns the path, or [None] after any [Exception] of the write. *)
Definition save_curl_response (self : fuzzer) (w : iteration_world)
    (pattern encoded_pattern : string) (r : response) (response_count : Z)
  : M (option string) :=
  try_except
    (let filename := artifact_filename response_count pattern in
     let filepath := path_join (curl_folder self) filename in
     io (on_save w)
        (WriteFile filepath (artifact_text self w pattern encoded_pattern r)) ;;
     ret (Some filepath))
    (fun x =>
       if is_Exception x then
         Some (print ("Error saving curl response: " +:+ exn_str x) ;;
               ret None)
       else None).

(** ** [LoopbackFuzzer.fuzz_server]: one iteration of the driver loop *)

Inductive flow := Continue | Break.

(** [response.status_code >= 400 or response.status_code == 200 and
    len(response.content) == 0]; [and] binds tighter than [or]. *)
Definition interesting (r : response) : bool :=
  (400 <=? status_code r)
  || ((status_code r =? 200) && (Z.of_nat (length (content r)) =? 0)).

Definition interesting_line (r : response) : string :=
  "    [!] INTERESTING: Status " +:+ PyStr.str (status_code r)
  +:+ ", Length " +:+ PyStr.str (Z.of_nat (length (content r))).

Definition result_record (pattern encoded_pattern url : string)
    (r : response) (curl_file : option string) (timestamp : string) : record :=
  dict [("pattern", VStr pattern);
        ("encoded_pattern", VStr encoded_pattern);
        ("url", VStr url);
        ("status_code", VInt (status_code r));
        ("content_length", VInt (Z.of_nat (length (content r))));
        ("curl_file", match curl_file with Some f => VStr f | None => VNone end);
        ("timestamp", VStr timestamp)].

Definition error_record (pattern encoded_pattern url e timestamp : string)
  : record :=
  dict [("pattern", VStr pattern);
        ("encoded_pattern", VStr encoded_pattern);
        ("url", VStr url);
        ("error", VStr e);
        ("timestamp", VStr timestamp)].

(** [f"[{i}/{total_patterns}]"]. *)
Definition progress (i total : nat) : string :=
  "[" +:+ PyStr.str (Z.of_nat i) +:+ "/" +:+ PyStr.str (Z.of_nat total) +:+ "]".

(** The body of [for i, pattern in enumerate(patterns, 1)].  The
    assignments of [encoded_pattern] and [url] open the [try] block and
    cannot raise, so every handler sees them bound. *)
Definition iteration (self : fuzzer) (w : iteration_world) (total i : nat)
    (pattern : string) : M flow :=
  let encoded_pattern := Base64.b64encode (PyStr.encode pattern) in
  let url := base_url self +:+ encoded_pattern in
  try_except
    (print (nl +:+ progress i total) ;;
     print ("Pattern:    '" +:+ pattern +:+ "'") ;;
     print ("Base64:     '" +:+ encoded_pattern +:+ "'") ;;
     print ("URL:        " +:+ url) ;;
     r <- requests_get w url 5 false ;;
     print ("Status:     " +:+ PyStr.str (status_code r)) ;;
     print ("Length:     " +:+ PyStr.str (Z.of_nat (length (content r)))
            +:+ " bytes") ;;
     curl_file <- save_curl_response self w pattern encoded_pattern r
                    (Z.of_nat i) ;;
     match curl_file with
     | Some f =>
         if String.eqb f EmptyString then ret tt
         else print ("Curl saved: " +:+ basename f)
     | None => ret tt
     end ;;
     print (PyStr.repeat_char "-" 40) ;;
     append_result
       (result_record pattern encoded_pattern url r curl_file (recorded_at w)) ;;
     (if interesting r then print (interesting_line r) else ret tt) ;;
     time_sleep w (delay self) ;;
     ret Continue)
    (fun x =>
       match x with
       | RequestException e =>
           Some (append_result
                   (error_record pattern encoded_pattern url e (recorded_at w)) ;;
                 print (nl +:+ progress i total +:+ " ERROR: " +:+ pattern) ;;
                 print ("Base64: '" +:+ encoded_pattern +:+ "'") ;;
                 print ("URL: " +:+ url) ;;
                 print ("Error: " +:+ e) ;;
                 print (PyStr.repeat_char "-" 40) ;;
                 ret Continue)
       | KeyboardInterrupt =>
           Some (print (nl +:+ "Fuzzing interrupted. Processed "
                        +:+ PyStr.str (Z.of_nat i) +:+ "/"
                        +:+ PyStr.str (Z.of_nat total) +:+ " patterns.") ;;
                 ret Break)
       | OtherException e =>
           Some (print (nl +:+ progress i total +:+ " UNEXPECTED ERROR: " +:+ e) ;;
                 print ("Pattern: '" +:+ pattern +:+ "'") ;;
                 print (PyStr.repeat_char "-" 40) ;;
                 ret Continue)
       end).

(** The loop over [enumerate(patterns, i)]; [world j] is the world during
    iteration number [j]. *)
Fixpoint fuzz_loop (self : fuzzer) (world : nat -> iteration_world)
    (total i : nat) (patterns : list string) : M unit :=
  match patterns with
  | [] => ret tt
  | pattern :: rest =>
      fl <- iteration self (world i) total i pattern ;;
      match fl with
      | Break => ret tt
      | Continue => fuzz_loop self world total (S i) rest
      end
  end.

(** ** [LoopbackFuzzer.save_results] *)

Definition save_results (self : fuzzer) (rw : report_world) : M unit :=
  try_except
    (rs <- get_results ;;
     io (on_dump rw) (DumpJson (log_file self) rs) ;;
     print (nl +:+ "Results saved to " +:+ log_file self))
    (fun x =>
       if is_Exception x then
         Some (print ("Error saving results: " +:+ exn_str x))
       else None).

(** ** [LoopbackFuzzer.print_summary] *)

(** [[r for r in self.results if 'status_code' in r]]. *)
Definition successful (rs : list record) : list record :=
  List.filter (has_key "status_code") rs.

(** [[r for r in self.results if 'error' in r]]. *)
Definition errors (rs : list record) : list record :=
  List.filter (has_key "error") rs.

(** [[r for r in self.results
      if 'curl_file' in r and r['curl_file'] is not None]]. *)
Definition curl_saved (r : record) : bool :=
  match r !! "curl_file" with
  | Some VNone => false
  | Some _ => true
  | None => false
  end.

Definition curl_files (rs : list record) : list record :=
  List.filter curl_saved rs.

(** [status_codes[code] = status_codes.get(code, 0) + 1] for every
    successful record.  The status code of a record the driver builds is
    an [int]; a record holding anything else there has no row here. *)
Definition count_code (acc : gmap Z nat) (r : record) : gmap Z nat :=
  match r !! "status_code" with
  | Some (VInt code) => <[code := (default 0 (acc !! code) + 1)%nat]> acc
  | _ => acc
  end.

Definition status_codes (rs : list record) : gmap Z nat :=
  foldl count_code ∅ (successful rs).

Definition item_le (a b : Z * nat) : Prop := a.1 <= b.1.

#[local] Instance item_le_dec : RelDecision item_le.
Proof. intros a b. unfold item_le. apply _. Defined.

(** [sorted(status_codes.items())]. *)
Definition sorted_items (m : gmap Z nat) : list (Z * nat) :=
  merge_sort item_le (map_to_list m).

Fixpoint for_each {A : Type} (xs : list A) (body : A -> M unit) : M unit :=
  match xs with
  | [] => ret tt
  | x :: rest => body x ;; for_each rest body
  end.

Definition print_summary (self : fuzzer) (rw : report_world) : M unit :=
  rs <- get_results ;;
  print (nl +:+ PyStr.repeat_char "=" 60) ;;
  print "RANDOM FUZZING SUMMARY" ;;
  print (PyStr.repeat_char "=" 60) ;;
  print ("Total patterns: " +:+ PyStr.str (Z.of_nat (length rs))) ;;
  print ("Successful requests: "
         +:+ PyStr.str (Z.of_nat (length (successful rs)))) ;;
  print ("Errors: " +:+ PyStr.str (Z.of_nat (length (errors rs)))) ;;
  print ("Curl files saved: "
         +:+ PyStr.str (Z.of_nat (length (curl_files rs)))) ;;
  print ("Duration: " +:+ duration rw) ;;
  print "Status codes distribution:" ;;
  for_each (sorted_items (status_codes rs))
    (fun item => print ("  " +:+ PyStr.str item.1 +:+ ": "
                        +:+ PyStr.str (Z.of_nat item.2))) ;;
  print ("Curl folder: " +:+ curl_folder self +:+ "/") ;;
  print ("JSON results: " +:+ log_file self) ;;
  print (PyStr.repeat_char "=" 60).

(** ** The methods that draw random numbers *)

Section Fuzzer.

Variable rng : Type.
Variable randbelow : nat -> rng -> nat * rng.

(** [LoopbackFuzzer.generate_random_patterns]. *)
Definition generate_random_patterns (self : fuzzer) (g : rng)
  : M (list string) :=
  print "Generating random patterns..." ;;
  match random_patterns rng randbelow (max_patterns self) g with
  | Some (patterns, _) => ret patterns
  | None => raise (OtherException "IndexError")
  end.

(** [LoopbackFuzzer.fuzz_server]. *)
Definition fuzz_server (self : fuzzer) (g : rng)
    (world : nat -> iteration_world) (rw : report_world) : M unit :=
  patterns <- generate_random_patterns self g ;;
  let total_patterns := length patterns in
  print ("Starting RANDOM fuzzing with "
         +:+ PyStr.str (Z.of_nat total_patterns) +:+ " patterns") ;;
  print ("Target: " +:+ base_url self) ;;
  print ("Curl responses saved to: " +:+ curl_folder self +:+ "/") ;;
  print (PyStr.repeat_char "-" 80) ;;
  fuzz_loop self world total_patterns 1 patterns ;;
  save_results self rw ;;
  print_summary self rw.

End Fuzzer.

(** ** Vocabulary of the specification *)

(** A slot: empty, or the decimal text of an integer of [0, 31], which
    [int] reads back. *)
Definition slot_valid (slot : string) : Prop :=
  slot = EmptyString
  \/ exists n : Z, 0 <= n <= 31 /\ slot = PyStr.str n /\ PyStr.int slot = Some n.

(** A pattern: exactly three [@], and the four fields they delimit are
    slots. *)
Definition pattern_valid (pattern : string) : Prop :=
  PyStr.count "@" pattern = 3%nat /\
  exists s1 s2 s3 s4,
    PyStr.split "@" pattern = [s1; s2; s3; s4] /\
    slot_valid s1 /\ slot_valid s2 /\ slot_valid s3 /\ slot_valid s4.

(** The checks on one element of [values], as a computation. *)
Definition slot_check (slot : string) : bool :=
  (String.eqb slot EmptyString
   || match PyStr.int slot with
      | Some n => (0 <=? n) && (n <=? 31) && String.eqb slot (PyStr.str n)
      | None => false
      end)
  && Nat.eqb (PyStr.count "@" slot) 0.

(** The sequence number in decimal, with zeros in front up to six
    characters. *)
Definition zero_padded6 (seq_no : nat) : string :=
  let digits := PyStr.str (Z.of_nat seq_no) in
  PyStr.repeat_char "0" (6 - String.length digits) +:+ digits.

(** Every [@] and every [/] replaced by [_], in one pass. *)
Fixpoint sanitized (pattern : string) : string :=
  match pattern with
  | EmptyString => EmptyString
  | String c rest =>
      String (if Ascii.eqb c "@" || Ascii.eqb c "/" then "_"%char else c)
             (sanitized rest)
  end.

(** [extend s d]: the state [s] followed by the records and events of
    [d]. *)
Definition extend (s d : state) : state :=
  {| results := results s ++ results d; trace := trace s ++ trace d |}.

(** The events between two states of one run. *)
Definition emitted (s s' : state) : list event :=
  drop (length (trace s)) (trace s').

(** A computation that only appends: what it returns and what it appends
    do not depend on the state it starts from. *)
Definition framed {A : Type} (m : M A) : Prop :=
  forall s, m s = ((m initial).1, extend s (m initial).2).

(** A property of the state that a computation maintains. *)
Definition maintains {A : Type} (I : state -> Prop) (m : M A) : Prop :=
  forall s, I s -> I (m s).2.

(** The console line that flags a response. *)
Definition is_flag (e : event) : bool :=
  match e with
  | Print line => String.prefix "    [!] INTERESTING" line
  | _ => false
  end.

Definition is_get (e : event) : bool :=
  match e with
  | HttpGet _ _ _ => true
  | _ => false
  end.

Definition is_sleep (e : event) : bool :=
  match e with
  | Sleep _ => true
  | _ => false
  end.

(** The user interrupt reaches the loop during this iteration. *)
Definition interrupted (w : iteration_world) : bool :=
  match on_get w with
  | GetInterrupted => true
  | Responded _ =>
      match on_save w, on_sleep w with
      | Interrupted, _ => true
      | _, Interrupted => true
      | _, _ => false
      end
  | _ => false
  end.

(** The iteration appends a record: a response arrived and the user did
    not interrupt the artifact write, or the transport failed. *)
Definition recorded (w : iteration_world) : bool :=
  match on_get w with
  | Responded _ =>
      match on_save w with
      | Interrupted => false
      | _ => true
      end
  | TransportFailure _ => true
  | _ => false
  end.

(** Exactly one of the keys [status_code] and [error], and a saved
    artifact only next to [status_code]. *)
Definition record_shape (r : record) : Prop :=
  has_key "status_code" r = negb (has_key "error" r)
  /\ (curl_saved r = true -> has_key "status_code" r = true).

(** Every record of the state has the shape above. *)
Definition shaped (s : state) : Prop := Forall record_shape (results s).

(** What [save_results] does to the world when the user does not
    interrupt it. *)
Definition dump_events (self : fuzzer) (rw : report_world)
    (rs : list record) : list event :=
  match on_dump rw with
  | Completed =>
      [DumpJson (log_file self) rs;
       Print (nl +:+ "Results saved to " +:+ log_file self)]
  | Failed e => [Print ("Error saving results: " +:+ e)]
  | Interrupted => []
  end.

(** The lines [print_summary] prints for the records [rs]. *)
Definition summary_events (self : fuzzer) (rw : report_world)
    (rs : list record) : list event :=
  [Print (nl +:+ PyStr.repeat_char "=" 60);
   Print "RANDOM FUZZING SUMMARY";
   Print (PyStr.repeat_char "=" 60);
   Print ("Total patterns: " +:+ PyStr.str (Z.of_nat (length rs)));
   Print ("Successful requests: "
          +:+ PyStr.str (Z.of_nat (length (successful rs))));
   Print ("Errors: " +:+ PyStr.str (Z.of_nat (length (errors rs))));
   Print ("Curl files saved: "
          +:+ PyStr.str (Z.of_nat (length (curl_files rs))));
   Print ("Duration: " +:+ duration rw);
   Print "Status codes distribution:"]
  ++ map (fun item : Z * nat =>
            Print ("  " +:+ PyStr.str item.1 +:+ ": "
                   +:+ PyStr.str (Z.of_nat item.2)))
         (sorted_items (status_codes rs))
  ++ [Print ("Curl folder: " +:+ curl_folder self +:+ "/");
      Print ("JSON results: " +:+ log_file self);
      Print (PyStr.repeat_char "=" 60)].

(** ** Concrete worlds *)

(** A small linear congruential generator. *)
Definition lcg (n : nat) (g : nat) : nat * nat :=
  ((g `mod` n)%nat, ((g * 5 + 3) `mod` 97)%nat).

Definition sample_fuzzer (cap : option Z) : fuzzer :=
  new_fuzzer "http://rodong.rep.kp/ko/index.php?" default_delay
    "fuzzer_log.json" cap.

Definition sample_response (code : Z) (body : list Z) : response :=
  {| status_code := code; content := body;
     headers := [("Content-Type", "text/html")]; text := "" |}.

Definition world_of (g : get_result) : iteration_world :=
  {| on_get := g; on_save := Completed; on_sleep := Completed;
     saved_at := "2026-01-01T00:00:00"; recorded_at := "2026-01-01T00:00:01" |}.

(** The first request times out, the others are answered. *)
Definition timeout_then_ok (i : nat) : iteration_world :=
  match i with
  | 1%nat => world_of (TransportFailure "timed out")
  | _ => world_of (Responded (sample_response 200 [79; 75]))
  end.

(** The first request fails without a message. *)
Definition silent_failure (i : nat) : iteration_world :=
  world_of (TransportFailure "").

(** The first request dies of an unexpected exception, the user
    interrupts the second. *)
Definition crash_then_interrupt (i : nat) : iteration_world :=
  match i with
  | 1%nat => world_of (GetCrashed "boom")
  | _ => world_of GetInterrupted
  end.


(** The artifact of the first response cannot be written. *)
Definition disk_full (i : nat) : iteration_world :=
  {| on_get := Responded (sample_response 500 []);
     on_save := Failed "No space left on device"; on_sleep := Completed;
     saved_at := "2026-01-01T00:00:00"; recorded_at := "2026-01-01T00:00:01" |}.

Definition report_ok : report_world :=
  {| on_dump := Completed; duration := "0:00:01" |}.

(** ** The constructor and the entry point *)

(** The world before the run: whether the [curl] folder exists, what
    [os.makedirs] does, and what [input] does (Enter, end of input, or a
    user interrupt). *)
Record startup_world := {
  folder_exists : bool;
  on_makedirs : io_result;
  on_input : io_result
}.

Definition outcome (r : io_result) : M unit :=
  match r with
  | Completed => ret tt
  | Failed e => raise (OtherException e)
  | Interrupted => raise KeyboardInterrupt
  end.

(** [self.results = []]. *)
Definition reset_results : M unit :=
  fun s => (inr tt, {| results := []; trace := trace s |}).

(** [LoopbackFuzzer.__init__]. *)
Definition init (sw : startup_world) (url : string) (d : Q) (log : string)
    (cap : option Z) : M fuzzer :=
  let self := new_fuzzer url d log cap in
  reset_results ;;
  (if folder_exists sw then ret tt
   else outcome (on_makedirs sw) ;;
        print ("Created folder: " +:+ curl_folder self)) ;;
  ret self.

(** [input(prompt)]: the prompt goes to the console, then the call waits
    for a line, which [main] ignores. *)
Definition input (sw : startup_world) (prompt : string) : M unit :=
  print prompt ;;
  outcome (on_input sw).

(** The constants of [main]; [DELAY_text] is [str(0.01)]. *)
Definition BASE_URL : string := "http://rodong.rep.kp/ko/index.php?".
Definition DELAY : Q := 1 # 100.
Definition DELAY_text : string := "0.01".
Definition MAX_PATTERNS : option Z := None.

Section Main.

Variable rng : Type.
Variable randbelow : nat -> rng -> nat * rng.

(** [main]. *)
Definition main (sw : startup_world) (g : rng)
    (world : nat -> iteration_world) (rw : report_world) : M unit :=
  fuzzer <- init sw BASE_URL DELAY "fuzzer_log.json" MAX_PATTERNS ;;
  print "Loopback Server Fuzzer - Real-time Display with Curl Saving" ;;
  print (PyStr.repeat_char "=" 60) ;;
  print ("Target: " +:+ BASE_URL) ;;
  print "Pattern: NUM@NUM@NUM@NUM where NUM = EMPTY or 0-31" ;;
  print "Total possible patterns: 33^4 = 1,185,921" ;;
  (if truthy MAX_PATTERNS
   then print ("Limited to: " +:+ PyStr.str (default 0 MAX_PATTERNS)
               +:+ " patterns")
   else ret tt) ;;
  print ("Delay between requests: " +:+ DELAY_text +:+ " seconds") ;;
  print "Curl responses will be saved to: curl/" ;;
  print (PyStr.repeat_char "=" 60) ;;
  try_except
    (input sw "Press Enter to start fuzzing..." ;;
     print (nl +:+ "Starting fuzzing (Ctrl+C to stop)...") ;;
     fuzz_server rng randbelow fuzzer g world rw)
    (fun x =>
       match x with
       | KeyboardInterrupt => Some (print (nl +:+ "Fuzzing cancelled by user."))
       | _ => Some (print ("Fatal error: " +:+ exn_str x))
       end).

End Main.

(** ** Further vocabulary *)

(** A string of ASCII digits. *)
Definition is_digit (c : ascii) : bool :=
  let n := Z.of_N (N_of_ascii c) in (48 <=? n) && (n <=? 57).

Fixpoint all_digits (s : string) : bool :=
  match s with
  | EmptyString => true
  | String c rest => is_digit c && all_digits rest
  end.

(** The request the driver sends for a pattern. *)
Definition request_of (self : fuzzer) (pattern : string) : event :=
  HttpGet (base_url self +:+ Base64.b64encode (PyStr.encode pattern)) 5 false.

(** The path the recorder writes the artifact of iteration [i] to. *)
Definition artifact_path (self : fuzzer) (i : nat) (pattern : string) : string :=
  path_join (curl_folder self) (artifact_filename (Z.of_nat i) pattern).

(** The paths of the artifact writes that completed, in order. *)
Fixpoint written_paths (tr : list event) : list string :=
  match tr with
  | [] => []
  | WriteFile path _ :: rest => path :: written_paths rest
  | _ :: rest => written_paths rest
  end.

(** The documents written to the log, in order. *)
Fixpoint dumped (tr : list event) : list (list record) :=
  match tr with
  | [] => []
  | DumpJson _ doc :: rest => doc :: dumped rest
  | _ :: rest => dumped rest
  end.

(** The record holds the status code [code]. *)
Definition has_code (code : Z) (r : record) : bool :=
  match r !! "status_code" with
  | Some (VInt c) => c =? code
  | _ => false
  end.

(** The status code of a record is an [int], when it has one. *)
Definition int_code (r : record) : Prop :=
  forall v, r !! "status_code" = Some v -> exists c, v = VInt c.

(** The request of the iteration is answered and its artifact written. *)
Definition answered_and_saved (w : iteration_world) : bool :=
  match on_get w, on_save w with
  | Responded _, Completed => true
  | _, _ => false
  end.

(** The clocks of a world, with every request answered by [r] and every
    write and sleep completing. *)
Definition always_answered (r : response) (i : nat) : iteration_world :=
  world_of (Responded r).

(** The request of every iteration dies of an unexpected exception. *)
Definition always_crashing (i : nat) : iteration_world :=
  world_of (GetCrashed "boom").

(** The user interrupts the write of the first artifact. *)
Definition interrupted_save (i : nat) : iteration_world :=
  {| on_get := Responded (sample_response 200 [79; 75]);
     on_save := Interrupted; on_sleep := Completed;
     saved_at := "2026-01-01T00:00:00"; recorded_at := "2026-01-01T00:00:01" |}.

Definition report_failing : report_world :=
  {| on_dump := Failed "Permission denied"; duration := "0:00:01" |}.

Definition report_interrupted : report_world :=
  {| on_dump := Interrupted; duration := "0:00:01" |}.

Definition startup_ok : startup_world :=
  {| folder_exists := true; on_makedirs := Completed; on_input := Completed |}.

Definition startup_cancelled : startup_world :=
  {| folder_exists := false; on_makedirs := Completed;
     on_input := Interrupted |}.

Definition startup_no_folder : startup_world :=
  {| folder_exists := false; on_makedirs := Failed "Permission denied";
     on_input := Completed |}.

(** An event of the report or of the console, as opposed to a request, an
    artifact write or a pause. *)
Definition is_report (e : event) : bool :=
  match e with
  | Print _ | DumpJson _ _ => true
  | _ => false
  end.

(** The [pattern] field of a record. *)
Definition pattern_of (r : record) : option value := r !! "pattern".

Definition is_write (e : event) : bool :=
  match e with
  | WriteFile _ _ => true
  | _ => false
  end.

(** The title line of the summary. *)
Definition is_summary_title (e : event) : bool :=
  match e with
  | Print line => String.eqb line "RANDOM FUZZING SUMMARY"
  | _ => false
  end.

(** Every request is answered, every artifact written, and every pause
    fails (as [time.sleep] does for a negative delay). *)
Definition failing_pause (i : nat) : iteration_world :=
  {| on_get := Responded (sample_response 200 [79; 75]);
     on_save := Completed;
     on_sleep := Failed "sleep length must be non-negative";
     saved_at := "2026-01-01T00:00:00"; recorded_at := "2026-01-01T00:00:01" |}.

(** The request is answered, the user does not interrupt the artifact
    write, and the pause completes. *)
Definition pauses (w : iteration_world) : bool :=
  match on_get w, on_save w, on_sleep w with
  | Responded _, Completed, Completed => true
  | Responded _, Failed _, Completed => true
  | _, _, _ => false
  end.

(** * Properties *)

(** ** Base64 *)

Section Base64Facts.

Import Base64.

Lemma land_shiftl_small (hi lo k : Z) :
  0 <= k -> 0 <= lo < 2 ^ k -> Z.land (hi ≪ k) lo = 0.
Proof.
  intros Hk Hlo. apply Z.bits_inj'. intros n Hn.
  rewrite Z.land_spec, Z.bits_0.
  destruct (Z.lt_ge_cases n k) as [Hlt | Hge].
  - rewrite Z.shiftl_spec_low by lia. reflexivity.
  - replace (Z.testbit lo n) with false; [apply andb_false_r |].
    symmetry. destruct (Z.eq_dec lo 0) as [-> | Hne]; [apply Z.bits_0 |].
    apply Z.bits_above_log2; [lia |].
    assert (Z.log2 lo < k) by (apply Z.log2_lt_pow2; lia). lia.
Qed.

(** Two bit fields that do not overlap add up. *)
Lemma lor_shiftl (hi lo k : Z) :
  0 <= k -> 0 <= lo < 2 ^ k -> Z.lor (hi ≪ k) lo = hi * 2 ^ k + lo.
Proof.
  intros Hk Hlo.
  rewrite <- Z.add_nocarry_lor by (apply land_shiftl_small; assumption).
  rewrite Z.shiftl_mul_pow2 by assumption. reflexivity.
Qed.

Lemma land_mask (a k : Z) : 0 <= k -> Z.land a (2 ^ k - 1) = a mod 2 ^ k.
Proof.
  intros Hk. rewrite <- Z.land_ones by assumption.
  rewrite Z.ones_equiv. reflexivity.
Qed.

Lemma land_3 a : Z.land a 3 = a mod 4.
Proof. exact (land_mask a 2 ltac:(lia)). Qed.

Lemma land_15 a : Z.land a 15 = a mod 16.
Proof. exact (land_mask a 4 ltac:(lia)). Qed.

Lemma land_63 a : Z.land a 63 = a mod 64.
Proof. exact (land_mask a 6 ltac:(lia)). Qed.

Lemma shiftr_2 a : a ≫ 2 = a / 4.
Proof. exact (Z.shiftr_div_pow2 a 2 ltac:(lia)). Qed.

Lemma shiftr_4 a : a ≫ 4 = a / 16.
Proof. exact (Z.shiftr_div_pow2 a 4 ltac:(lia)). Qed.

Lemma shiftr_6 a : a ≫ 6 = a / 64.
Proof. exact (Z.shiftr_div_pow2 a 6 ltac:(lia)). Qed.

Lemma shiftl_2 a : a ≪ 2 = a * 4.
Proof. exact (Z.shiftl_mul_pow2 a 2 ltac:(lia)). Qed.

Lemma shiftl_4 a : a ≪ 4 = a * 16.
Proof. exact (Z.shiftl_mul_pow2 a 4 ltac:(lia)). Qed.

Lemma lor_shiftl_2 hi lo : 0 <= lo < 4 -> Z.lor (hi ≪ 2) lo = hi * 4 + lo.
Proof. intros. apply (lor_shiftl hi lo 2); simpl; lia. Qed.

Lemma lor_shiftl_4 hi lo : 0 <= lo < 16 -> Z.lor (hi ≪ 4) lo = hi * 16 + lo.
Proof. intros. apply (lor_shiftl hi lo 4); simpl; lia. Qed.

Lemma lor_shiftl_6 hi lo : 0 <= lo < 64 -> Z.lor (hi ≪ 6) lo = hi * 64 + lo.
Proof. intros. apply (lor_shiftl hi lo 6); simpl; lia. Qed.

Ltac arith := Z.div_mod_to_equations; lia.

Ltac to_arith :=
  rewrite ?land_3, ?land_15, ?land_63, ?shiftr_2, ?shiftr_4, ?shiftr_6.

(** The six-bit groups of three bytes, read arithmetically. *)
Lemma sextet2_arith b1 b2 :
  PyStr.is_byte b1 -> PyStr.is_byte b2 ->
  Z.lor (Z.land b1 3 ≪ 4) (b2 ≫ 4) = b1 mod 4 * 16 + b2 / 16.
Proof. unfold PyStr.is_byte. intros. to_arith. apply lor_shiftl_4. arith. Qed.

Lemma sextet3_arith b2 b3 :
  PyStr.is_byte b2 -> PyStr.is_byte b3 ->
  Z.lor (Z.land b2 15 ≪ 2) (b3 ≫ 6) = b2 mod 16 * 4 + b3 / 64.
Proof. unfold PyStr.is_byte. intros. to_arith. apply lor_shiftl_2. arith. Qed.

Lemma sextet1_range b : PyStr.is_byte b -> is_sextet (b ≫ 2).
Proof. unfold PyStr.is_byte, is_sextet. intros. to_arith. arith. Qed.

Lemma sextet2_range b1 b2 :
  PyStr.is_byte b1 -> PyStr.is_byte b2 ->
  is_sextet (Z.lor (Z.land b1 3 ≪ 4) (b2 ≫ 4)).
Proof.
  intros. rewrite sextet2_arith by assumption.
  unfold PyStr.is_byte, is_sextet in *. arith.
Qed.

Lemma sextet3_range b2 b3 :
  PyStr.is_byte b2 -> PyStr.is_byte b3 ->
  is_sextet (Z.lor (Z.land b2 15 ≪ 2) (b3 ≫ 6)).
Proof.
  intros. rewrite sextet3_arith by assumption.
  unfold PyStr.is_byte, is_sextet in *. arith.
Qed.

Lemma sextet4_range b : PyStr.is_byte b -> is_sextet (Z.land b 63).
Proof. unfold PyStr.is_byte, is_sextet. intros. to_arith. arith. Qed.

Lemma sextet2_alone_range b : PyStr.is_byte b -> is_sextet (Z.land b 3 ≪ 4).
Proof.
  unfold PyStr.is_byte, is_sextet. intros. to_arith. rewrite shiftl_4. arith.
Qed.

Lemma sextet3_alone_range b : PyStr.is_byte b -> is_sextet (Z.land b 15 ≪ 2).
Proof.
  unfold PyStr.is_byte, is_sextet. intros. to_arith. rewrite shiftl_2. arith.
Qed.

(** The bytes the decoder rebuilds from the groups of the encoder. *)
Lemma first_byte b1 b2 :
  PyStr.is_byte b1 -> PyStr.is_byte b2 ->
  Z.lor ((b1 ≫ 2) ≪ 2) (Z.lor (Z.land b1 3 ≪ 4) (b2 ≫ 4) ≫ 4) = b1.
Proof.
  intros H1 H2. rewrite sextet2_arith by assumption.
  unfold PyStr.is_byte in *. to_arith. rewrite lor_shiftl_2 by arith. arith.
Qed.

Lemma second_byte b1 b2 b3 :
  PyStr.is_byte b1 -> PyStr.is_byte b2 -> PyStr.is_byte b3 ->
  Z.lor (Z.land (Z.lor (Z.land b1 3 ≪ 4) (b2 ≫ 4)) 15 ≪ 4)
        (Z.lor (Z.land b2 15 ≪ 2) (b3 ≫ 6) ≫ 2) = b2.
Proof.
  intros H1 H2 H3. rewrite sextet2_arith, sextet3_arith by assumption.
  unfold PyStr.is_byte in *. to_arith. rewrite lor_shiftl_4 by arith. arith.
Qed.

Lemma third_byte b2 b3 :
  PyStr.is_byte b2 -> PyStr.is_byte b3 ->
  Z.lor (Z.land (Z.lor (Z.land b2 15 ≪ 2) (b3 ≫ 6)) 3 ≪ 6) (Z.land b3 63)
  = b3.
Proof.
  intros H2 H3. rewrite sextet3_arith by assumption.
  unfold PyStr.is_byte in *. to_arith. rewrite lor_shiftl_6 by arith. arith.
Qed.

Lemma first_byte_alone b1 :
  PyStr.is_byte b1 -> Z.lor ((b1 ≫ 2) ≪ 2) ((Z.land b1 3 ≪ 4) ≫ 4) = b1.
Proof.
  unfold PyStr.is_byte. intros H1. to_arith. rewrite shiftl_4.
  rewrite lor_shiftl_2 by arith. arith.
Qed.

Lemma second_byte_alone b1 b2 :
  PyStr.is_byte b1 -> PyStr.is_byte b2 ->
  Z.lor (Z.land (Z.lor (Z.land b1 3 ≪ 4) (b2 ≫ 4)) 15 ≪ 4)
        ((Z.land b2 15 ≪ 2) ≫ 2) = b2.
Proof.
  intros H1 H2. rewrite sextet2_arith by assumption.
  unfold PyStr.is_byte in *. to_arith. rewrite shiftl_2.
  rewrite lor_shiftl_4 by arith. arith.
Qed.

(** The alphabet is one-to-one on the 64 groups and never yields [=]. *)
Lemma sextet_table : forallb sextet_table_ok (seq 0 64) = true.
Proof. vm_compute. reflexivity. Qed.

Lemma sextet_table_at n :
  is_sextet n ->
  b64_index (b64_char n) = Some n /\ Ascii.eqb (b64_char n) pad = false.
Proof.
  intros Hn. unfold is_sextet in Hn.
  pose proof sextet_table as Ht. rewrite forallb_forall in Ht.
  specialize (Ht (Z.to_nat n)). unfold sextet_table_ok in Ht.
  rewrite Z2Nat.id in Ht by lia.
  assert (In (Z.to_nat n) (seq 0 64)) as Hin by (apply in_seq; lia).
  apply Ht in Hin. apply andb_true_iff in Hin as [Hi Hp].
  apply bool_decide_eq_true_1 in Hi. apply negb_true_iff in Hp. auto.
Qed.

Lemma b64_index_char n : is_sextet n -> b64_index (b64_char n) = Some n.
Proof. intros. apply sextet_table_at. assumption. Qed.

Lemma b64_char_not_pad n : is_sextet n -> Ascii.eqb (b64_char n) pad = false.
Proof. intros. apply sextet_table_at. assumption. Qed.

(** Induction three elements at a time. *)
Lemma list_ind3 {A : Type} (P : list A -> Prop) :
  P [] -> (forall a, P [a]) -> (forall a b, P [a; b]) ->
  (forall a b c l, P l -> P (a :: b :: c :: l)) ->
  forall l, P l.
Proof.
  intros H0 H1 H2 H3.
  fix IH 1. intros [| a [| b [| c l]]];
    [exact H0 | apply H1 | apply H2 | apply H3, IH].
Qed.

Ltac decode_step :=
  cbn -[b64_char b64_index Z.lor Z.land Z.shiftl Z.shiftr pad
        Ascii.eqb String.eqb].

Lemma b64_roundtrip (bs : list Z) :
  Forall PyStr.is_byte bs -> b64decode (b64encode bs) = Some bs.
Proof.
  induction bs as [| b1 | b1 b2 | b1 b2 b3 rest IH] using list_ind3;
    intros Hbs.
  - reflexivity.
  - inversion Hbs as [| ? ? H1 _]; subst.
    cbn [b64encode b64decode].
    rewrite !b64_index_char by auto using sextet1_range, sextet2_alone_range.
    decode_step. rewrite first_byte_alone by assumption. reflexivity.
  - inversion Hbs as [| ? ? H1 Hbs']; subst.
    inversion Hbs' as [| ? ? H2 _]; subst.
    cbn [b64encode b64decode].
    rewrite !b64_index_char
      by auto using sextet1_range, sextet2_range, sextet3_alone_range.
    decode_step. rewrite b64_char_not_pad by auto using sextet3_alone_range.
    rewrite first_byte, second_byte_alone by assumption. reflexivity.
  - inversion Hbs as [| ? ? H1 Hbs1]; subst.
    inversion Hbs1 as [| ? ? H2 Hbs2]; subst.
    inversion Hbs2 as [| ? ? H3 Hrest]; subst.
    cbn [b64encode b64decode].
    rewrite !b64_index_char
      by auto using sextet1_range, sextet2_range, sextet3_range, sextet4_range.
    decode_step.
    rewrite !b64_char_not_pad by auto using sextet3_range, sextet4_range.
    rewrite IH by assumption. cbn -[Z.lor Z.land Z.shiftl Z.shiftr].
    rewrite first_byte, second_byte, third_byte by assumption. reflexivity.
Qed.

Lemma utf8_char_bytes c : Forall PyStr.is_byte (PyStr.utf8_char c).
Proof.
  unfold PyStr.utf8_char.
  assert (0 <= Z.of_N (N_of_ascii c) < 256) as Hc.
  { pose proof (N_ascii_bounded c). lia. }
  set (n := Z.of_N (N_of_ascii c)) in *.
  destruct (n <? 128) eqn:Hlt.
  - repeat constructor; lia.
  - apply Z.ltb_ge in Hlt.
    constructor; [| constructor; [| constructor]]; unfold PyStr.is_byte.
    + rewrite shiftr_6. replace 192 with (3 ≪ 6) by reflexivity.
      rewrite lor_shiftl_6 by arith. arith.
    + rewrite land_63. replace 128 with (2 ≪ 6) by reflexivity.
      rewrite lor_shiftl_6 by arith. arith.
Qed.

Lemma encode_bytes s : Forall PyStr.is_byte (PyStr.encode s).
Proof.
  induction s as [| c s IH]; cbn [PyStr.encode].
  - constructor.
  - apply Forall_app. split; [apply utf8_char_bytes | exact IH].
Qed.

End Base64Facts.

(** C9.  Decoding the base64 text the driver builds from a pattern gives
    back the UTF-8 bytes of the pattern, whatever the pattern. *)
Theorem pattern_base64_roundtrip (pattern : string) :
  Base64.b64decode (Base64.b64encode (PyStr.encode pattern))
  = Some (PyStr.encode pattern).
Proof. apply b64_roundtrip, encode_bytes. Qed.

Example b64encode_example :
  Base64.b64encode (PyStr.encode "5@@12@31") = "NUBAMTJAMzE="%string.
Proof. reflexivity. Qed.

(** ** The random source *)

Section RandomFacts.

Variable rng : Type.
Variable randbelow : nat -> rng -> nat * rng.
Hypothesis randbelow_lt :
  forall (n : nat) (g : rng), (0 < n)%nat -> ((randbelow n g).1 < n)%nat.

Lemma choice_total {A : Type} (xs : list A) (g : rng) :
  xs <> [] ->
  exists x g', choice rng randbelow xs g = Some (x, g') /\ x ∈ xs.
Proof.
  intros Hne. unfold choice.
  assert (0 < length xs)%nat as Hlen by (destruct xs; [congruence | cbn; lia]).
  pose proof (randbelow_lt (length xs) g Hlen) as Hk.
  destruct (randbelow (length xs) g) as [k g'] eqn:Hr. cbn in Hk.
  destruct (lookup_lt_is_Some_2 xs k Hk) as [x Hx].
  exists x, g'. rewrite Hx. split; [reflexivity |].
  apply list_elem_of_lookup. eauto.
Qed.

Lemma swap_total {A : Type} (i j : nat) (x : list A) :
  (i < length x)%nat -> (j < length x)%nat ->
  exists x', swap i j x = Some x' /\ x' ≡ₚ x.
Proof.
  intros Hi Hj. unfold swap.
  destruct (lookup_lt_is_Some_2 x i Hi) as [xi Hxi].
  destruct (lookup_lt_is_Some_2 x j Hj) as [xj Hxj].
  rewrite Hxi, Hxj. cbn. eexists. split; [reflexivity |].
  apply Permutation_insert_swap; assumption.
Qed.

(** [shuffle] returns, and what it returns is a rearrangement. *)
Lemma shuffle_from_total {A : Type} (i : nat) (x : list A) (g : rng) :
  (i < length x)%nat \/ i = 0%nat ->
  exists x' g', shuffle_from rng randbelow i x g = Some (x', g') /\ x' ≡ₚ x.
Proof.
  revert x g. induction i as [| i IH]; intros x g Hi.
  - exists x, g. split; reflexivity.
  - destruct Hi as [Hi | Hi]; [| discriminate].
    cbn [shuffle_from].
    pose proof (randbelow_lt (S (S i)) g ltac:(lia)) as Hj.
    destruct (randbelow (S (S i)) g) as [j g1]. cbn in Hj.
    destruct (swap_total (S i) j x) as (x1 & Hswap & Hperm); [lia | lia |].
    rewrite Hswap. cbn.
    destruct (IH x1 g1) as (x' & g' & Hsh & Hperm').
    { left. rewrite (Permutation_length Hperm). lia. }
    exists x', g'. split; [exact Hsh |]. etransitivity; eassumption.
Qed.

Lemma shuffle_total {A : Type} (x : list A) (g : rng) :
  exists x' g', shuffle rng randbelow x g = Some (x', g') /\ x' ≡ₚ x.
Proof. apply shuffle_from_total. lia. Qed.

End RandomFacts.

(** ** Patterns *)

Lemma values_checked : forallb slot_check values = true.
Proof. vm_compute. reflexivity. Qed.

Lemma values_slot (slot : string) :
  slot ∈ values -> slot_valid slot /\ PyStr.count "@" slot = 0%nat.
Proof.
  intros Hin. apply list_elem_of_In in Hin.
  pose proof values_checked as Hall. rewrite forallb_forall in Hall.
  specialize (Hall slot Hin). unfold slot_check in Hall.
  apply andb_true_iff in Hall as [Hslot Hcount].
  apply Nat.eqb_eq in Hcount. split; [| exact Hcount].
  apply orb_true_iff in Hslot as [Hempty | Hnum].
  - left. apply String.eqb_eq. exact Hempty.
  - right. destruct (PyStr.int slot) as [n |] eqn:Hint; [| discriminate].
    apply andb_true_iff in Hnum as [Hrange Heq].
    apply andb_true_iff in Hrange as [Hlo Hhi].
    exists n. split; [lia |]. split; [| reflexivity].
    apply String.eqb_eq. exact Heq.
Qed.

Lemma count_app (c : ascii) (s t : string) :
  PyStr.count c (s +:+ t) = (PyStr.count c s + PyStr.count c t)%nat.
Proof.
  induction s as [| d s IH]; simpl; [reflexivity |].
  rewrite IH. lia.
Qed.

Lemma split_no_sep (sep : ascii) (s : string) :
  PyStr.count sep s = 0%nat -> PyStr.split sep s = [s].
Proof.
  induction s as [| c s IH]; simpl; [reflexivity |].
  destruct (Ascii.eqb c sep); [discriminate |].
  intros Hc. rewrite IH by exact Hc. reflexivity.
Qed.

Lemma split_field (sep : ascii) (s rest : string) :
  PyStr.count sep s = 0%nat ->
  PyStr.split sep (s +:+ String sep rest) = s :: PyStr.split sep rest.
Proof.
  induction s as [| c s IH]; simpl.
  - rewrite Ascii.eqb_refl. reflexivity.
  - destruct (Ascii.eqb c sep); [discriminate |].
    intros Hc. rewrite IH by exact Hc. reflexivity.
Qed.

Lemma sep_app (c : ascii) (s : string) :
  String c EmptyString +:+ s = String c s.
Proof. reflexivity. Qed.

Lemma pattern_of_slots (pos1 pos2 pos3 pos4 : string) :
  pos1 ∈ values -> pos2 ∈ values -> pos3 ∈ values -> pos4 ∈ values ->
  pattern_valid (pos1 +:+ "@" +:+ pos2 +:+ "@" +:+ pos3 +:+ "@" +:+ pos4).
Proof.
  intros [V1 C1]%values_slot [V2 C2]%values_slot
         [V3 C3]%values_slot [V4 C4]%values_slot.
  split.
  - rewrite !count_app, C1, C2, C3, C4. reflexivity.
  - exists pos1, pos2, pos3, pos4. split; [| auto].
    rewrite !sep_app.
    rewrite (split_field "@" pos1), (split_field "@" pos2),
      (split_field "@" pos3) by assumption.
    rewrite split_no_sep by assumption. reflexivity.
Qed.

Section GeneratorFacts.

Variable rng : Type.
Variable randbelow : nat -> rng -> nat * rng.
Hypothesis randbelow_lt :
  forall (n : nat) (g : rng), (0 < n)%nat -> ((randbelow n g).1 < n)%nat.

Lemma choice_values (g : rng) :
  exists pos g', choice rng randbelow values g = Some (pos, g') /\ pos ∈ values.
Proof. apply (choice_total rng randbelow randbelow_lt); discriminate. Qed.

Lemma generate_loop_total (count : nat) (acc : list string) (g : rng) :
  exists ps g',
    generate_loop rng randbelow count acc g = Some (acc ++ ps, g')
    /\ length ps = count /\ Forall pattern_valid ps.
Proof.
  revert acc g. induction count as [| count IH]; intros acc g.
  - exists [], g. rewrite app_nil_r. repeat split. constructor.
  - cbn [generate_loop].
    destruct (choice_values g) as (pos1 & g1 & E1 & H1).
    destruct (choice_values g1) as (pos2 & g2 & E2 & H2).
    destruct (choice_values g2) as (pos3 & g3 & E3 & H3).
    destruct (choice_values g3) as (pos4 & g4 & E4 & H4).
    rewrite E1. cbn -[choice generate_loop values].
    rewrite E2. cbn -[choice generate_loop values].
    rewrite E3. cbn -[choice generate_loop values].
    rewrite E4. cbn -[choice generate_loop values].
    destruct (IH (acc ++ [pos1 +:+ "@" +:+ pos2 +:+ "@" +:+ pos3
                          +:+ "@" +:+ pos4]) g4)
      as (ps & g' & -> & Hlen & Hvalid).
    eexists (_ :: ps), g'. rewrite <- app_assoc. split; [reflexivity |].
    split; [cbn; lia |].
    constructor; [| exact Hvalid]. apply pattern_of_slots; assumption.
Qed.

Lemma random_patterns_total (cap : option Z) (g : rng) :
  exists ps g',
    random_patterns rng randbelow cap g = Some (ps, g')
    /\ length ps = Z.to_nat (total_patterns cap)
    /\ Forall pattern_valid ps.
Proof.
  unfold random_patterns.
  generalize (Z.to_nat (total_patterns cap)) as count. intros count.
  destruct (generate_loop_total count [] g) as (ps & g1 & -> & Hlen & Hvalid).
  cbn -[shuffle].
  destruct (shuffle_total rng randbelow randbelow_lt ps g1)
    as (ps' & g' & -> & Hperm).
  exists ps', g'. split; [reflexivity |]. split.
  - rewrite (Permutation_length Hperm). exact Hlen.
  - rewrite Hperm. exact Hvalid.
Qed.

(** The method prints one line and returns the patterns. *)
Lemma generate_random_patterns_total (self : fuzzer) (g : rng) (s : state) :
  exists patterns,
    generate_random_patterns rng randbelow self g s
    = (inr patterns,
       extend s {| results := [];
                   trace := [Print "Generating random patterns..."] |})
    /\ length patterns = Z.to_nat (total_patterns (max_patterns self))
    /\ Forall pattern_valid patterns.
Proof.
  destruct (random_patterns_total (max_patterns self) g)
    as (ps & g' & Hgen & Hlen & Hvalid).
  exists ps. split; [| split; assumption].
  unfold generate_random_patterns, bind, print, emit, ret, extend.
  rewrite Hgen. cbn [results trace]. rewrite app_nil_r. reflexivity.
Qed.

End GeneratorFacts.

(** The number of rounds of the generating loop. *)
Lemma total_patterns_count (cap : option Z) :
  Z.of_nat (Z.to_nat (total_patterns cap))
  = match cap with
    | None => 1185921
    | Some n => if n =? 0 then 1185921 else Z.max 0 n
    end.
Proof.
  assert (Z.of_nat (Z.to_nat (33 ^ 4)) = 1185921) as Hfull.
  { rewrite Z2Nat.id by (apply Z.pow_nonneg; lia). reflexivity. }
  unfold total_patterns, truthy.
  destruct cap as [n |]; [| exact Hfull].
  destruct (n =? 0); cbn [negb]; [exact Hfull |].
  change (default 0 (Some n)) with n. lia.
Qed.

Lemma lcg_lt (n g : nat) : (0 < n)%nat -> ((lcg n g).1 < n)%nat.
Proof. intros Hn. unfold lcg. cbn [fst]. apply Nat.mod_upper_bound. lia. Qed.

(** C1.  Whatever the random source answers, the generator returns, and
    every pattern it returns has exactly three [@] that delimit four
    slots, each empty or the decimal text of an integer of [0, 31]. *)
Theorem generated_patterns_valid (rng : Type)
    (randbelow : nat -> rng -> nat * rng)
    (randbelow_lt :
       forall (n : nat) (g : rng), (0 < n)%nat -> ((randbelow n g).1 < n)%nat)
    (self : fuzzer) (g : rng) (s : state) :
  exists patterns s',
    generate_random_patterns rng randbelow self g s = (inr patterns, s')
    /\ Forall pattern_valid patterns.
Proof.
  destruct (generate_random_patterns_total rng randbelow randbelow_lt self g s)
    as (ps & Hrun & _ & Hvalid).
  eauto.
Qed.

Lemma generated_patterns_valid_witness :
  (forall (n g : nat), (0 < n)%nat -> ((lcg n g).1 < n)%nat)
  /\ exists patterns s',
       generate_random_patterns nat lcg (sample_fuzzer (Some 10)) 42%nat initial
       = (inr patterns, s')
       /\ Forall pattern_valid patterns.
Proof.
  split; [exact lcg_lt |].
  exact (generated_patterns_valid nat lcg lcg_lt (sample_fuzzer (Some 10))
           42%nat initial).
Defined.

(** C5, as the code has it.  A count that is supplied and not zero gives
    that many patterns when it is positive and none when it is negative;
    no count, or the count zero, gives 33^4 = 1,185,921 patterns. *)
Theorem generated_patterns_count (rng : Type)
    (randbelow : nat -> rng -> nat * rng)
    (randbelow_lt :
       forall (n : nat) (g : rng), (0 < n)%nat -> ((randbelow n g).1 < n)%nat)
    (self : fuzzer) (g : rng) (s : state) :
  exists patterns s',
    generate_random_patterns rng randbelow self g s = (inr patterns, s')
    /\ Z.of_nat (length patterns)
       = match max_patterns self with
         | None => 1185921
         | Some n => if n =? 0 then 1185921 else Z.max 0 n
         end.
Proof.
  destruct (generate_random_patterns_total rng randbelow randbelow_lt self g s)
    as (ps & Hrun & Hlen & _).
  exists ps. eexists. split; [exact Hrun |].
  rewrite Hlen. apply total_patterns_count.
Qed.

Lemma generated_patterns_count_witness :
  (forall (n g : nat), (0 < n)%nat -> ((lcg n g).1 < n)%nat)
  /\ exists patterns s',
       generate_random_patterns nat lcg (sample_fuzzer (Some 10)) 42%nat initial
       = (inr patterns, s')
       /\ Z.of_nat (length patterns) = 10.
Proof.
  split; [exact lcg_lt |].
  exact (generated_patterns_count nat lcg lcg_lt (sample_fuzzer (Some 10))
           42%nat initial).
Defined.

(** C5 as stated fails at the count zero: the caller asks for no pattern
    and gets 1,185,921. *)
Lemma zero_count_counterexample :
  exists patterns s',
    generate_random_patterns nat lcg (sample_fuzzer (Some 0)) 42%nat initial
    = (inr patterns, s')
    /\ Z.of_nat (length patterns) = 1185921
    /\ Z.of_nat (length patterns) <> 0.
Proof.
  destruct (generate_random_patterns_total nat lcg lcg_lt
              (sample_fuzzer (Some 0)) 42%nat initial)
    as (ps & Hrun & Hlen & _).
  exists ps. eexists. split; [exact Hrun |].
  assert (Z.of_nat (length ps) = 1185921) as Hcount.
  { rewrite Hlen. exact (total_patterns_count (Some 0)). }
  split; [exact Hcount | lia].
Qed.

(** ** The artifact file name *)

Lemma format_06d_nat (seq_no : nat) :
  PyStr.format_06d (Z.of_nat seq_no) = zero_padded6 seq_no.
Proof.
  unfold PyStr.format_06d, zero_padded6.
  assert ((Z.of_nat seq_no <? 0) = false) as -> by (apply Z.ltb_ge; lia).
  rewrite Z.abs_eq by lia. cbn [String.length].
  rewrite Nat.sub_0_r. reflexivity.
Qed.

(** Replacing [@] and then [/] is one pass that replaces both: the
    underscore the first pass writes is not touched by the second. *)
Lemma safe_pattern_sanitized (pattern : string) :
  safe_pattern pattern = sanitized pattern.
Proof.
  unfold safe_pattern.
  induction pattern as [| c rest IH]; [reflexivity |].
  cbn [PyStr.replace sanitized]. rewrite IH. f_equal.
  destruct (Ascii.eqb c "@") eqn:Hat; cbn [orb]; [reflexivity |].
  reflexivity.
Qed.

Lemma sanitized_clean (pattern : string) :
  PyStr.count "@" (sanitized pattern) = 0%nat
  /\ PyStr.count "/" (sanitized pattern) = 0%nat
  /\ String.length (sanitized pattern) = String.length pattern.
Proof.
  induction pattern as [| c rest (IHat & IHslash & IHlen)];
    [repeat split |].
  cbn [sanitized PyStr.count String.length].
  rewrite IHat, IHslash, IHlen.
  destruct (Ascii.eqb c "@") eqn:Hat; cbn [orb].
  - repeat split.
  - destruct (Ascii.eqb c "/") eqn:Hslash.
    + repeat split.
    + rewrite Hat, Hslash. repeat split.
Qed.

(** C6.  The recorder's file name is [response_], the sequence number
    zero-padded to six digits, [_], the pattern with every [@] and [/]
    replaced by [_], and [.txt]; sequence 7 with pattern [@@@] gives
    [response_000007____.txt]. *)
Theorem artifact_filename_spec (seq_no : nat) (pattern : string) :
  artifact_filename (Z.of_nat seq_no) pattern
  = "response_" +:+ zero_padded6 seq_no +:+ "_" +:+ sanitized pattern
    +:+ ".txt"
  /\ artifact_filename 7 "@@@" = "response_000007____.txt"%string.
Proof.
  split; [| reflexivity].
  unfold artifact_filename.
  rewrite format_06d_nat, safe_pattern_sanitized. reflexivity.
Qed.

(** ** Computations that only append *)

Lemma extend_assoc s d1 d2 : extend (extend s d1) d2 = extend s (extend d1 d2).
Proof. unfold extend. cbn. rewrite !app_assoc. reflexivity. Qed.

Lemma extend_nothing s : extend s initial = s.
Proof. destruct s. unfold extend. cbn. rewrite !app_nil_r. reflexivity. Qed.

Lemma emitted_extend s d : emitted s (extend s d) = trace d.
Proof. unfold emitted, extend. cbn [trace]. apply drop_app_length. Qed.

Lemma framed_ret {A : Type} (a : A) : framed (ret a).
Proof. intros s. unfold ret. cbn. rewrite extend_nothing. reflexivity. Qed.

Lemma framed_raise {A : Type} (x : exn) : framed (@raise A x).
Proof. intros s. unfold raise. cbn. rewrite extend_nothing. reflexivity. Qed.

Lemma framed_emit e : framed (emit e).
Proof. intros [rs tr]. unfold emit, extend. cbn. rewrite app_nil_r. reflexivity. Qed.

Lemma framed_print line : framed (print line).
Proof. apply framed_emit. Qed.

Lemma framed_append_result r : framed (append_result r).
Proof.
  intros [rs tr]. unfold append_result, extend. cbn.
  rewrite app_nil_r. reflexivity.
Qed.

Lemma framed_bind {A B : Type} (m : M A) (k : A -> M B) :
  framed m -> (forall a, framed (k a)) -> framed (bind m k).
Proof.
  intros Hm Hk s. unfold bind. rewrite (Hm s).
  destruct (m initial) as [[x | a] d]; cbn [fst snd].
  - reflexivity.
  - rewrite (Hk a (extend s d)), (Hk a d). cbn [fst snd].
    rewrite extend_assoc. reflexivity.
Qed.

Lemma framed_try_except {A : Type} (body : M A)
    (handler : exn -> option (M A)) :
  framed body -> (forall x h, handler x = Some h -> framed h) ->
  framed (try_except body handler).
Proof.
  intros Hb Hh s. unfold try_except. rewrite (Hb s).
  destruct (body initial) as [[x | a] d]; cbn [fst snd].
  - destruct (handler x) as [h |] eqn:E; [| reflexivity].
    rewrite (Hh x h E (extend s d)), (Hh x h E d). cbn [fst snd].
    rewrite extend_assoc. reflexivity.
  - reflexivity.
Qed.

Lemma framed_io r e : framed (io r e).
Proof. destruct r; [apply framed_emit | apply framed_raise ..]. Qed.

Create HintDb framed.
#[local] Hint Resolve framed_ret framed_raise framed_emit framed_print
  framed_append_result framed_io : framed.

Ltac framed_step :=
  match goal with
  | |- framed (bind _ _) => apply framed_bind; [| intros ?]
  | |- framed (try_except _ _) =>
      apply framed_try_except; [| intros [? | | ?] ? [= <-]]
  | |- framed (match ?x with _ => _ end) => destruct x
  | |- framed _ => solve [auto with framed]
  end.

Lemma framed_requests_get w url t a : framed (requests_get w url t a).
Proof. unfold requests_get. repeat framed_step. Qed.

Lemma framed_time_sleep w d : framed (time_sleep w d).
Proof. apply framed_io. Qed.

Lemma framed_save_curl_response self w p enc r n :
  framed (save_curl_response self w p enc r n).
Proof.
  unfold save_curl_response. apply framed_try_except.
  - repeat framed_step.
  - intros x h. destruct (is_Exception x); [| discriminate].
    intros [= <-]. repeat framed_step.
Qed.

#[local] Hint Resolve framed_requests_get framed_time_sleep
  framed_save_curl_response : framed.

Lemma framed_iteration self w total i pattern :
  framed (iteration self w total i pattern).
Proof. unfold iteration. repeat framed_step. Qed.

Lemma framed_fuzz_loop self world total i patterns :
  framed (fuzz_loop self world total i patterns).
Proof.
  revert i. induction patterns as [| p rest IH]; intros i; cbn [fuzz_loop].
  - apply framed_ret.
  - apply framed_bind; [apply framed_iteration |].
    intros [|]; [apply IH | apply framed_ret].
Qed.

(** ** One iteration, run from the empty state *)

Ltac run :=
  cbv beta iota zeta delta
    [iteration save_curl_response try_except bind ret raise emit print io
     append_result requests_get time_sleep results trace is_Exception exn_str
     initial fst snd on_get on_save on_sleep recorded_at saved_at
     interrupted recorded app].

Ltac split_world w :=
  destruct w as [[? | ? | | ?] [| ? |] [| ? |] ? ?].

Ltac split_ifs :=
  repeat match goal with
    | |- context [if ?b then _ else _] => destruct b eqn:?; run
    end.

Lemma iteration_flow self w total i pattern :
  (iteration self w total i pattern initial).1
  = inr (if interrupted w then Break else Continue).
Proof. split_world w; run; split_ifs; reflexivity. Qed.


Lemma result_record_shape p enc url r f t :
  record_shape (result_record p enc url r f t).
Proof. split; intros; destruct f; reflexivity. Qed.

Lemma error_record_shape p enc url e t :
  record_shape (error_record p enc url e t).
Proof. split; [reflexivity | intros H; vm_compute in H; discriminate]. Qed.

Lemma iteration_records_shape self w total i pattern :
  Forall record_shape (results (iteration self w total i pattern initial).2).
Proof.
  split_world w; run; split_ifs; repeat constructor;
    auto using result_record_shape, error_record_shape.
Qed.


(** The line that flags a response is printed exactly for the
    interesting ones. *)
Lemma iteration_flag self w total i pattern r :
  on_get w = Responded r -> on_save w <> Interrupted ->
  existsb is_flag (trace (iteration self w total i pattern initial).2)
  = interesting r.
Proof.
  split_world w; cbn [on_get on_save]; intros [= ->] Hsave;
    try congruence; run; split_ifs; reflexivity.
Qed.

(** C2.  A response the driver gets to process (the user does not
    interrupt the artifact write) is flagged exactly when its status is at
    least 400, or is 200 with an empty body; a 500 with an empty body is
    flagged, a 200 with a body is not. *)
Theorem interesting_flag (self : fuzzer) (w : iteration_world)
    (total i : nat) (pattern : string) (s : state) (r : response) :
  on_get w = Responded r ->
  on_save w <> Interrupted ->
  let printed := emitted s (iteration self w total i pattern s).2 in
  (existsb is_flag printed = true
   <-> status_code r >= 400
       \/ (status_code r = 200 /\ length (content r) = 0%nat))
  /\ (status_code r = 500 -> content r = [] ->
      existsb is_flag printed = true)
  /\ (status_code r = 200 -> content r <> [] ->
      existsb is_flag printed = false).
Proof.
  intros Hget Hsave printed. subst printed.
  rewrite (framed_iteration self w total i pattern s). cbn [snd].
  rewrite emitted_extend, (iteration_flag self w total i pattern r Hget Hsave).
  unfold interesting. split; [| split].
  - rewrite orb_true_iff, andb_true_iff, Z.leb_le, !Z.eqb_eq. lia.
  - intros -> ->. reflexivity.
  - intros -> Hbody. destruct (content r); [congruence | reflexivity].
Qed.

Lemma interesting_flag_witness :
  on_get (disk_full 1) = Responded (sample_response 500 [])
  /\ on_save (disk_full 1) <> Interrupted
  /\ existsb is_flag
       (emitted initial
          (iteration (sample_fuzzer None) (disk_full 1) 1 1 "5@@12@31"
             initial).2)
     = true.
Proof.
  split; [reflexivity |]. split; [discriminate |].
  apply (interesting_flag (sample_fuzzer None) (disk_full 1) 1 1 "5@@12@31"
           initial (sample_response 500 []));
    [reflexivity | discriminate | reflexivity | reflexivity].
Defined.

(** ** Transport failures *)

Lemma iteration_transport_failure self w total i pattern e :
  on_get w = TransportFailure e ->
  let encoded_pattern := Base64.b64encode (PyStr.encode pattern) in
  let url := base_url self +:+ encoded_pattern in
  iteration self w total i pattern initial
  = (inr Continue,
     {| results :=
          [error_record pattern encoded_pattern url e (recorded_at w)];
        trace :=
          [Print (nl +:+ progress i total);
           Print ("Pattern:    '" +:+ pattern +:+ "'");
           Print ("Base64:     '" +:+ encoded_pattern +:+ "'");
           Print ("URL:        " +:+ url);
           HttpGet url 5 false;
           Print (nl +:+ progress i total +:+ " ERROR: " +:+ pattern);
           Print ("Base64: '" +:+ encoded_pattern +:+ "'");
           Print ("URL: " +:+ url);
           Print ("Error: " +:+ e);
           Print (PyStr.repeat_char "-" 40)] |}).
Proof. split_world w; cbn [on_get]; intros [= ->]; reflexivity. Qed.

(** One step of the loop. *)
Lemma fuzz_loop_cons self world total i pattern rest s :
  fuzz_loop self world total i (pattern :: rest) s
  = let s1 := extend s (iteration self (world i) total i pattern initial).2 in
    if interrupted (world i) then (inr tt, s1)
    else fuzz_loop self world total (S i) rest s1.
Proof.
  cbn [fuzz_loop]. unfold bind.
  rewrite (framed_iteration self (world i) total i pattern s).
  rewrite iteration_flow. cbn [fst snd].
  destruct (interrupted (world i)); reflexivity.
Qed.

(** C3, as the code has it.  When the request of an iteration raises a
    transport failure, the driver appends exactly one record, made of the
    pattern, the encoded pattern, the URL, the text of the exception
    (whatever it is, the empty text included) and a timestamp, and goes
    on with the next pattern. *)
Theorem transport_failure_recorded (self : fuzzer)
    (world : nat -> iteration_world) (total i : nat) (pattern : string)
    (rest : list string) (s : state) (e : string) :
  on_get (world i) = TransportFailure e ->
  exists r s',
    iteration self (world i) total i pattern s = (inr Continue, s')
    /\ results s' = results s ++ [r]
    /\ r !! "pattern" = Some (VStr pattern)
    /\ r !! "encoded_pattern"
       = Some (VStr (Base64.b64encode (PyStr.encode pattern)))
    /\ r !! "url"
       = Some (VStr (base_url self
                     +:+ Base64.b64encode (PyStr.encode pattern)))
    /\ r !! "error" = Some (VStr e)
    /\ r !! "timestamp" = Some (VStr (recorded_at (world i)))
    /\ has_key "status_code" r = false
    /\ fuzz_loop self world total i (pattern :: rest) s
       = fuzz_loop self world total (S i) rest s'.
Proof.
  intros Hget.
  pose proof (iteration_transport_failure self (world i) total i pattern e Hget)
    as Hrun. cbv zeta in Hrun.
  eexists. eexists. split.
  { rewrite (framed_iteration self (world i) total i pattern s), Hrun.
    reflexivity. }
  cbn [snd extend results].
  repeat (split; [reflexivity |]).
  rewrite fuzz_loop_cons. cbv zeta.
  unfold interrupted. rewrite Hget, Hrun. reflexivity.
Qed.

Lemma transport_failure_recorded_witness :
  on_get (timeout_then_ok 1) = TransportFailure "timed out"
  /\ exists r s',
       iteration (sample_fuzzer None) (timeout_then_ok 1) 2 1 "@@@" initial
       = (inr Continue, s')
       /\ results s' = results initial ++ [r]
       /\ r !! "pattern" = Some (VStr "@@@")
       /\ r !! "encoded_pattern"
          = Some (VStr (Base64.b64encode (PyStr.encode "@@@")))
       /\ r !! "url"
          = Some (VStr (base_url (sample_fuzzer None)
                        +:+ Base64.b64encode (PyStr.encode "@@@")))
       /\ r !! "error" = Some (VStr "timed out")
       /\ r !! "timestamp" = Some (VStr (recorded_at (timeout_then_ok 1)))
       /\ has_key "status_code" r = false
       /\ fuzz_loop (sample_fuzzer None) timeout_then_ok 2 1
            ("@@@" :: ["1@2@3@4"]) initial
          = fuzz_loop (sample_fuzzer None) timeout_then_ok 2 2
              ["1@2@3@4"] s'.
Proof.
  split; [reflexivity |].
  exact (transport_failure_recorded (sample_fuzzer None) timeout_then_ok 2 1
           "@@@" ["1@2@3@4"] initial "timed out" eq_refl).
Defined.

(** C3 as stated fails for a transport failure that carries no message:
    the record's error description is the empty text. *)
Lemma silent_failure_counterexample :
  on_get (silent_failure 1) = TransportFailure ""
  /\ exists r,
       results (iteration (sample_fuzzer None) (silent_failure 1) 1 1 "@@@"
                  initial).2 = [r]
       /\ r !! "error" = Some (VStr "").
Proof. split; [reflexivity |]. eexists. split; reflexivity. Qed.

(** ** Artifact write failures *)

Lemma save_curl_response_failed self w pattern encoded_pattern r n e s :
  on_save w = Failed e ->
  save_curl_response self w pattern encoded_pattern r n s
  = (inr None,
     extend s {| results := [];
                 trace := [Print ("Error saving curl response: " +:+ e)] |}).
Proof.
  intros Hsave.
  rewrite (framed_save_curl_response self w pattern encoded_pattern r n s).
  unfold save_curl_response, try_except, bind, io. rewrite Hsave.
  reflexivity.
Qed.

(** C7.  When the artifact of an answered request cannot be written, the
    recorder returns the absent value without raising, the Success record
    is appended with its [curl_file] absent, the iteration does not raise,
    and unless the user interrupts the pause that follows, the loop goes
    on with the next pattern. *)
Theorem artifact_failure_recovered (self : fuzzer)
    (world : nat -> iteration_world) (total i : nat) (pattern : string)
    (rest : list string) (s : state) (r : response) (e : string) :
  on_get (world i) = Responded r ->
  on_save (world i) = Failed e ->
  let encoded_pattern := Base64.b64encode (PyStr.encode pattern) in
  (forall s0,
     (save_curl_response self (world i) pattern encoded_pattern r
        (Z.of_nat i) s0).1 = inr None)
  /\ exists fl rec s',
       iteration self (world i) total i pattern s = (inr fl, s')
       /\ results s' = results s ++ [rec]
       /\ rec !! "status_code" = Some (VInt (status_code r))
       /\ rec !! "curl_file" = Some VNone
       /\ has_key "error" rec = false
       /\ (on_sleep (world i) <> Interrupted ->
           fl = Continue
           /\ fuzz_loop self world total i (pattern :: rest) s
              = fuzz_loop self world total (S i) rest s').
Proof.
  intros Hget Hsave encoded_pattern. split.
  { intros s0. unfold encoded_pattern.
    rewrite (save_curl_response_failed _ _ _ _ _ _ e) by exact Hsave.
    reflexivity. }
  assert (exists d,
             iteration self (world i) total i pattern initial
             = (inr (if interrupted (world i) then Break else Continue), d)
             /\ results d
                = [result_record pattern encoded_pattern
                     (base_url self +:+ encoded_pattern) r None
                     (recorded_at (world i))])
    as (d & Hrun & Hrec).
  { destruct (world i) as [g sv sl t1 t2]. cbn [on_get on_save] in Hget, Hsave.
    subst g sv. destruct sl; run; split_ifs; eexists; split; reflexivity. }
  eexists. eexists. eexists. split.
  { rewrite (framed_iteration self (world i) total i pattern s), Hrun.
    reflexivity. }
  cbn [snd extend results]. rewrite Hrec.
  repeat (split; [reflexivity |]).
  intros Hsleep.
  assert (interrupted (world i) = false) as Hint.
  { unfold interrupted. rewrite Hget, Hsave.
    destruct (on_sleep (world i)); congruence. }
  rewrite Hint. split; [reflexivity |].
  rewrite fuzz_loop_cons. cbv zeta. rewrite Hint, Hrun. reflexivity.
Qed.

Lemma artifact_failure_recovered_witness :
  on_get (disk_full 1) = Responded (sample_response 500 [])
  /\ on_save (disk_full 1) = Failed "No space left on device"
  /\ exists fl rec s',
       iteration (sample_fuzzer None) (disk_full 1) 2 1 "@@@" initial
       = (inr fl, s')
       /\ results s' = results initial ++ [rec]
       /\ rec !! "status_code" = Some (VInt 500)
       /\ rec !! "curl_file" = Some VNone
       /\ has_key "error" rec = false
       /\ (on_sleep (disk_full 1) <> Interrupted ->
           fl = Continue
           /\ fuzz_loop (sample_fuzzer None) disk_full 2 1
                ("@@@" :: ["1@2@3@4"]) initial
              = fuzz_loop (sample_fuzzer None) disk_full 2 2
                  ["1@2@3@4"] s').
Proof.
  split; [reflexivity |]. split; [reflexivity |].
  exact (proj2 (artifact_failure_recovered (sample_fuzzer None) disk_full 2 1
                  "@@@" ["1@2@3@4"] initial (sample_response 500 [])
                  "No space left on device" eq_refl eq_refl)).
Defined.

(** ** The pause between requests *)

(** An answered request whose record is appended is followed by the
    configured pause. *)
Lemma answered_request_pause self w total i pattern s r :
  on_get w = Responded r -> on_save w <> Interrupted ->
  on_sleep w = Completed ->
  List.filter is_sleep (emitted s (iteration self w total i pattern s).2)
  = [Sleep (delay self)].
Proof.
  intros Hget Hsave Hsleep.
  rewrite (framed_iteration self w total i pattern s). cbn [snd].
  rewrite emitted_extend. revert Hget Hsave Hsleep.
  split_world w; cbn [on_get on_save on_sleep]; intros [= ->] Hsave Hsleep;
    try congruence; run; split_ifs; reflexivity.
Qed.

(** A request that ends in a transport failure is followed by no pause. *)
Lemma transport_failure_no_pause self w total i pattern s e :
  on_get w = TransportFailure e ->
  List.filter is_sleep (emitted s (iteration self w total i pattern s).2) = [].
Proof.
  intros Hget.
  rewrite (framed_iteration self w total i pattern s). cbn [snd].
  rewrite emitted_extend.
  pose proof (iteration_transport_failure self w total i pattern e Hget)
    as Hrun. cbv zeta in Hrun. rewrite Hrun. reflexivity.
Qed.

(** C8 fails on the code: after a request that ends in a transport
    failure the next request is sent at once.  Here the first of two
    requests times out; the only pause of the run comes after the second
    request. *)
Theorem no_pause_after_transport_failure :
  let s' := (fuzz_loop (sample_fuzzer None) timeout_then_ok 2 1
               ["@@@"; "1@2@3@4"] initial).2 in
  List.filter (fun e => is_get e || is_sleep e) (trace s')
  = [HttpGet "http://rodong.rep.kp/ko/index.php?QEBA" 5 false;
     HttpGet "http://rodong.rep.kp/ko/index.php?MUAyQDNANA==" 5 false;
     Sleep default_delay]
  /\ length (results s') = 2%nat.
Proof. vm_compute. split; reflexivity. Qed.

(** ** The loop *)

Lemma fuzz_loop_returns self world total i patterns s :
  (fuzz_loop self world total i patterns s).1 = inr tt.
Proof.
  revert i s. induction patterns as [| p rest IH]; intros i s.
  - reflexivity.
  - rewrite fuzz_loop_cons. cbv zeta.
    destruct (interrupted (world i)); [reflexivity | apply IH].
Qed.



(** ** The report *)

Lemma for_each_print {A : Type} (items : list A) (line : A -> string) s :
  for_each items (fun item => print (line item)) s
  = (inr tt,
     extend s {| results := [];
                 trace := map (fun item => Print (line item)) items |}).
Proof.
  revert s. induction items as [| item items IH]; intros s.
  - cbn. rewrite extend_nothing. reflexivity.
  - cbn [for_each map]. unfold bind at 1. unfold print at 1, emit.
    rewrite IH. unfold extend. cbn [results trace].
    rewrite !app_nil_r, <- app_assoc. reflexivity.
Qed.

Lemma save_results_run self rw s :
  on_dump rw <> Interrupted ->
  save_results self rw s
  = (inr tt,
     extend s {| results := [];
                 trace := dump_events self rw (results s) |}).
Proof.
  intros Hdump. destruct s as [rs tr].
  unfold save_results, dump_events, try_except, bind, get_results, io,
    print, emit, raise, extend.
  destruct (on_dump rw); [| | congruence];
    cbn [results trace is_Exception exn_str];
    rewrite ?app_nil_r, <- ?app_assoc; reflexivity.
Qed.

Lemma print_summary_run self rw s :
  print_summary self rw s
  = (inr tt,
     extend s {| results := [];
                 trace := summary_events self rw (results s) |}).
Proof.
  destruct s as [rs tr].
  unfold print_summary, summary_events.
  unfold bind at 1. unfold get_results. cbn [results].
  set (rows := for_each _ _).
  cbv beta iota zeta delta [bind print emit results trace].
  subst rows. rewrite for_each_print. unfold extend.
  cbv beta iota zeta delta [bind print emit results trace].
  rewrite !app_nil_r, <- !app_assoc. reflexivity.
Qed.

(** ** The whole run *)

Lemma bind_run {A B : Type} (m : M A) (k : A -> M B) s a s' :
  m s = (inr a, s') -> bind m k s = k a s'.
Proof. intros Hm. unfold bind. rewrite Hm. reflexivity. Qed.

Lemma results_extend_events s evs :
  results (extend s {| results := []; trace := evs |}) = results s.
Proof. unfold extend. cbn [results]. apply app_nil_r. Qed.

Lemma print_run line s :
  print line s
  = (inr tt, extend s {| results := []; trace := [Print line] |}).
Proof.
  destruct s as [rs tr]. unfold print, emit, extend. cbn.
  rewrite app_nil_r. reflexivity.
Qed.

Section RunFacts.

Variable rng : Type.
Variable randbelow : nat -> rng -> nat * rng.

(** The banner [fuzz_server] prints before the loop. *)
Lemma fuzz_server_run self g world rw s patterns g' :
  random_patterns rng randbelow (max_patterns self) g = Some (patterns, g') ->
  on_dump rw <> Interrupted ->
  let s1 :=
    extend s
      {| results := [];
         trace :=
           [Print "Generating random patterns...";
            Print ("Starting RANDOM fuzzing with "
                   +:+ PyStr.str (Z.of_nat (length patterns)) +:+ " patterns");
            Print ("Target: " +:+ base_url self);
            Print ("Curl responses saved to: " +:+ curl_folder self +:+ "/");
            Print (PyStr.repeat_char "-" 80)] |} in
  let s2 := (fuzz_loop self world (length patterns) 1 patterns s1).2 in
  fuzz_server rng randbelow self g world rw s
  = (inr tt,
     extend s2
       {| results := [];
          trace := dump_events self rw (results s2)
                   ++ summary_events self rw (results s2) |}).
Proof.
  intros Hgen Hdump s1 s2.
  assert (generate_random_patterns rng randbelow self g s
          = (inr patterns,
             extend s {| results := [];
                         trace := [Print "Generating random patterns..."] |}))
    as Hpatterns.
  { unfold generate_random_patterns.
    rewrite (bind_run _ _ _ _ _ (print_run _ s)), Hgen. reflexivity. }
  assert (fuzz_loop self world (length patterns) 1 patterns s1 = (inr tt, s2))
    as Hloop.
  { unfold s2. rewrite (surjective_pairing (fuzz_loop _ _ _ _ _ s1)) at 1.
    rewrite fuzz_loop_returns. reflexivity. }
  unfold fuzz_server.
  rewrite (bind_run _ _ _ _ _ Hpatterns).
  repeat (erewrite bind_run; [| apply print_run]).
  rewrite !extend_assoc. unfold extend at 2 3 4 5. cbn [results trace app].
  fold s1. rewrite (bind_run _ _ _ _ _ Hloop).
  rewrite (bind_run _ _ _ _ _ (save_results_run self rw s2 Hdump)).
  rewrite print_summary_run, extend_assoc.
  unfold extend at 2. cbn [results trace app].
  rewrite results_extend_events. reflexivity.
Qed.

End RunFacts.

(** ** Interrupted runs *)




Section InterruptedRun.

Variable rng : Type.
Variable randbelow : nat -> rng -> nat * rng.
Hypothesis randbelow_lt :
  forall (n : nat) (g : rng), (0 < n)%nat -> ((randbelow n g).1 < n)%nat.


End InterruptedRun.

(** ** The shape of the records *)

Lemma maintains_ret {A : Type} I (a : A) : maintains I (ret a).
Proof. intros s Hs. exact Hs. Qed.

Lemma maintains_raise {A : Type} I (x : exn) : maintains I (@raise A x).
Proof. intros s Hs. exact Hs. Qed.

Lemma maintains_bind {A B : Type} I (m : M A) (k : A -> M B) :
  maintains I m -> (forall a, maintains I (k a)) -> maintains I (bind m k).
Proof.
  intros Hm Hk s Hs. unfold bind. specialize (Hm s Hs).
  destruct (m s) as [[x | a] s1]; cbn [snd] in *; [exact Hm |].
  apply Hk. exact Hm.
Qed.

Lemma maintains_try_except {A : Type} I (body : M A)
    (handler : exn -> option (M A)) :
  maintains I body -> (forall x h, handler x = Some h -> maintains I h) ->
  maintains I (try_except body handler).
Proof.
  intros Hb Hh s Hs. unfold try_except. specialize (Hb s Hs).
  destruct (body s) as [[x | a] s1]; cbn [snd] in *; [| exact Hb].
  destruct (handler x) as [h |] eqn:E; [| exact Hb].
  apply (Hh x h E). exact Hb.
Qed.

Lemma shaped_emit e : maintains shaped (emit e).
Proof. intros s Hs. exact Hs. Qed.

Lemma shaped_print line : maintains shaped (print line).
Proof. apply shaped_emit. Qed.

Lemma shaped_io r e : maintains shaped (io r e).
Proof.
  destruct r; [apply shaped_emit | apply maintains_raise ..].
Qed.

Lemma shaped_get_results : maintains shaped get_results.
Proof. intros s Hs. exact Hs. Qed.

Lemma shaped_append_result r :
  record_shape r -> maintains shaped (append_result r).
Proof.
  intros Hr s Hs. unfold shaped, append_result. cbn [snd results].
  apply Forall_app. split; [exact Hs |].
  constructor; [exact Hr | constructor].
Qed.

Lemma shaped_for_each {A : Type} (xs : list A) (body : A -> M unit) :
  (forall x, maintains shaped (body x)) -> maintains shaped (for_each xs body).
Proof.
  intros Hbody. induction xs as [| x xs IH]; cbn [for_each].
  - apply maintains_ret.
  - apply maintains_bind; [apply Hbody | intros _; exact IH].
Qed.

Create HintDb shaped.
#[local] Hint Resolve maintains_ret maintains_raise shaped_emit shaped_print
  shaped_io shaped_get_results shaped_append_result result_record_shape
  error_record_shape : shaped.

Ltac shaped_step :=
  match goal with
  | |- maintains shaped (bind _ _) => apply maintains_bind; [| intros ?]
  | |- maintains shaped (for_each _ _) => apply shaped_for_each; intros ?
  | |- maintains shaped (match ?x with _ => _ end) => destruct x
  | |- maintains shaped _ => solve [auto with shaped]
  end.

Lemma shaped_iteration self w total i pattern :
  maintains shaped (iteration self w total i pattern).
Proof.
  intros s Hs. rewrite (framed_iteration self w total i pattern s).
  unfold shaped, extend in *. cbn [snd results].
  apply Forall_app. split; [exact Hs | apply iteration_records_shape].
Qed.

Lemma shaped_fuzz_loop self world total i patterns :
  maintains shaped (fuzz_loop self world total i patterns).
Proof.
  revert i. induction patterns as [| p rest IH]; intros i; cbn [fuzz_loop].
  - apply maintains_ret.
  - apply maintains_bind; [apply shaped_iteration |].
    intros [|]; [apply IH | apply maintains_ret].
Qed.

Lemma shaped_save_results self rw : maintains shaped (save_results self rw).
Proof.
  unfold save_results. apply maintains_try_except.
  - repeat shaped_step.
  - intros x h. destruct (is_Exception x); [| discriminate].
    intros [= <-]. repeat shaped_step.
Qed.

Lemma shaped_print_summary self rw : maintains shaped (print_summary self rw).
Proof. unfold print_summary. repeat shaped_step. Qed.

Lemma shaped_fuzz_server rng randbelow self g world rw :
  maintains shaped (fuzz_server rng randbelow self g world rw).
Proof.
  unfold fuzz_server. apply maintains_bind.
  - unfold generate_random_patterns.
    apply maintains_bind; [apply shaped_print | intros _].
    destruct (random_patterns rng randbelow (max_patterns self) g)
      as [[patterns g'] |]; [apply maintains_ret | apply maintains_raise].
  - intros patterns.
    do 4 (apply maintains_bind; [apply shaped_print | intros _]).
    apply maintains_bind; [apply shaped_fuzz_loop | intros _].
    apply maintains_bind; [apply shaped_save_results | intros _].
    apply shaped_print_summary.
Qed.

(** What the shape gives the reporter. *)
Lemma shaped_counts (rs : list record) :
  Forall record_shape rs ->
  (length (successful rs) + length (errors rs))%nat = length rs
  /\ Forall (fun r => has_key "status_code" r = true) (curl_files rs).
Proof.
  unfold successful, errors, curl_files.
  induction 1 as [| r rs [Hone Hcurl] _ [IHcount IHcurl]];
    [split; [reflexivity | constructor] |].
  cbn [List.filter]. split.
  - rewrite Hone. destruct (has_key "error" r); cbn [negb length]; lia.
  - destruct (curl_saved r) eqn:Hsaved; [| exact IHcurl].
    constructor; [apply Hcurl; reflexivity | exact IHcurl].
Qed.

(** C10.  Every record of a run has exactly one of the keys
    [status_code] and [error]; so the reporter's successful count and
    error count add up to the total, and every record counted as a saved
    artifact is a Success record. *)
Theorem records_are_success_or_failure (rng : Type)
    (randbelow : nat -> rng -> nat * rng) (self : fuzzer) (g : rng)
    (world : nat -> iteration_world) (rw : report_world) :
  let rs := results (fuzz_server rng randbelow self g world rw initial).2 in
  Forall (fun r => has_key "status_code" r = negb (has_key "error" r)) rs
  /\ (length (successful rs) + length (errors rs))%nat = length rs
  /\ Forall (fun r => has_key "status_code" r = true) (curl_files rs).
Proof.
  intros rs.
  assert (Forall record_shape rs) as Hshape.
  { apply (shaped_fuzz_server rng randbelow self g world rw initial).
    constructor. }
  split; [| apply shaped_counts; exact Hshape].
  eapply Forall_impl; [exact Hshape |]. intros r [Hone _]. exact Hone.
Qed.

(** * Further properties *)

(** ** Decimal text *)

Lemma pretty_N_char_digit (x : N) : is_digit (pretty_N_char x) = true.
Proof.
  unfold pretty_N_char. repeat case_match; reflexivity.
Qed.

Lemma pretty_N_go_digits (x : N) (s : string) :
  all_digits s = true -> all_digits (pretty_N_go x s) = true.
Proof.
  revert s. induction (N.lt_wf_0 x) as [x _ IH]; intros s Hs.
  destruct (N.eq_dec x 0%N) as [-> | Hx].
  - rewrite pretty_N_go_0. exact Hs.
  - rewrite pretty_N_go_step by lia. apply IH.
    + apply N.div_lt; lia.
    + cbn [all_digits]. rewrite pretty_N_char_digit, Hs. reflexivity.
Qed.

Lemma str_digits (n : Z) : 0 <= n -> all_digits (PyStr.str n) = true.
Proof.
  intros Hn. unfold PyStr.str, pretty, pretty_Z.
  destruct n as [| p | p]; [reflexivity | | lia].
  unfold pretty, pretty_positive, pretty, pretty_N.
  destruct (decide (N.pos p = 0%N)); [reflexivity |].
  apply pretty_N_go_digits. reflexivity.
Qed.

Lemma all_digits_app (s t : string) :
  all_digits (s +:+ t) = all_digits s && all_digits t.
Proof.
  induction s as [| c s IH]; simpl; [reflexivity |].
  rewrite IH. apply andb_assoc.
Qed.

Lemma all_digits_zeros (k : nat) : all_digits (PyStr.repeat_char "0" k) = true.
Proof. induction k as [| k IH]; [reflexivity | exact IH]. Qed.

Lemma zero_padded6_digits (seq_no : nat) :
  all_digits (zero_padded6 seq_no) = true.
Proof.
  unfold zero_padded6. rewrite all_digits_app, all_digits_zeros.
  apply str_digits. lia.
Qed.

(** A digit is neither a slash nor an underscore. *)
Lemma digit_not_sep (c : ascii) :
  is_digit c = true -> Ascii.eqb c "/" = false /\ Ascii.eqb c "_" = false.
Proof.
  intros Hd. split; apply Ascii.eqb_neq; intros ->; discriminate.
Qed.

Lemma digits_no_slash (s : string) :
  all_digits s = true -> PyStr.count "/" s = 0%nat.
Proof.
  induction s as [| c s IH]; [reflexivity |].
  cbn [all_digits PyStr.count]. intros [Hc Hs]%andb_true_iff.
  destruct (digit_not_sep c Hc) as [-> _]. apply IH. exact Hs.
Qed.

Lemma append_assoc (a b c : string) : (a +:+ b) +:+ c = a +:+ (b +:+ c).
Proof.
  induction a as [| d a IH]; [reflexivity |].
  change (String d ((a +:+ b) +:+ c) = String d (a +:+ (b +:+ c))).
  rewrite IH. reflexivity.
Qed.

Lemma pretty_N_go_app (x : N) (s : string) :
  pretty_N_go x s = pretty_N_go x EmptyString +:+ s.
Proof.
  revert s. induction (N.lt_wf_0 x) as [x _ IH]; intros s.
  destruct (N.eq_dec x 0%N) as [-> | Hx].
  - rewrite !pretty_N_go_0. reflexivity.
  - rewrite !(pretty_N_go_step x) by lia.
    rewrite (IH (x `div` 10)%N) by (apply N.div_lt; lia).
    rewrite (IH (x `div` 10)%N ltac:(apply N.div_lt; lia)
               (String _ EmptyString)).
    rewrite append_assoc. reflexivity.
Qed.

Lemma int_digits_snoc (acc : Z) (s : string) (c : ascii) :
  PyStr.int_digits acc (s +:+ String c EmptyString)
  = match PyStr.int_digits acc s, PyStr.digit_value c with
    | Some v, Some d => Some (10 * v + d)
    | _, _ => None
    end.
Proof.
  revert acc. induction s as [| b s IH]; intros acc; simpl.
  - destruct (PyStr.digit_value c); reflexivity.
  - destruct (PyStr.digit_value b); [apply IH |].
    destruct (PyStr.digit_value c); reflexivity.
Qed.

Lemma digit_value_char (m : N) :
  (m < 10)%N -> PyStr.digit_value (pretty_N_char m) = Some (Z.of_N m).
Proof.
  intros Hm.
  assert (m = 0 \/ m = 1 \/ m = 2 \/ m = 3 \/ m = 4 \/ m = 5 \/ m = 6
          \/ m = 7 \/ m = 8 \/ m = 9)%N as Hcases by lia.
  repeat (destruct Hcases as [-> | Hcases]; [reflexivity |]).
  subst m. reflexivity.
Qed.

(** Reading back the digits the printer writes. *)
Lemma int_digits_pretty (x : N) :
  PyStr.int_digits 0 (pretty_N_go x EmptyString) = Some (Z.of_N x).
Proof.
  induction (N.lt_wf_0 x) as [x _ IH].
  destruct (N.eq_dec x 0%N) as [-> | Hx]; [reflexivity |].
  rewrite pretty_N_go_step, pretty_N_go_app by lia.
  rewrite int_digits_snoc, IH by (apply N.div_lt; lia).
  rewrite digit_value_char by (apply N.mod_lt; lia).
  f_equal. pose proof (N.div_mod x 10 ltac:(lia)). lia.
Qed.

Lemma int_digits_str (n : Z) :
  0 <= n -> PyStr.int_digits 0 (PyStr.str n) = Some n.
Proof.
  intros Hn. unfold PyStr.str, pretty, pretty_Z.
  destruct n as [| p | p]; [reflexivity | | lia].
  unfold pretty, pretty_positive, pretty, pretty_N.
  destruct (decide (N.pos p = 0%N)); [discriminate |].
  apply int_digits_pretty.
Qed.

Lemma int_digits_zeros (k : nat) (s : string) :
  PyStr.int_digits 0 (PyStr.repeat_char "0" k +:+ s) = PyStr.int_digits 0 s.
Proof. induction k as [| k IH]; [reflexivity | exact IH]. Qed.

Lemma zero_padded6_value (seq_no : nat) :
  PyStr.int_digits 0 (zero_padded6 seq_no) = Some (Z.of_nat seq_no).
Proof.
  unfold zero_padded6. rewrite int_digits_zeros. apply int_digits_str. lia.
Qed.

(** ** Strings *)

Lemma append_inv_head (a x y : string) : a +:+ x = a +:+ y -> x = y.
Proof.
  induction a as [| c a IH]; simpl; [auto |].
  intros [= H]. apply IH. exact H.
Qed.

(** A run of digits is delimited by the underscore that follows it. *)
Lemma digits_field_unique (a b x y : string) :
  all_digits a = true -> all_digits b = true ->
  a +:+ String "_" x = b +:+ String "_" y -> a = b /\ x = y.
Proof.
  revert b. induction a as [| c a IH]; intros [| d b]; simpl.
  - intros _ _ [= ->]. auto.
  - intros _ [Hd _]%andb_true_iff [= <- _]. discriminate.
  - intros [Hc _]%andb_true_iff _ [= -> _]. discriminate.
  - intros [_ Ha]%andb_true_iff [_ Hb]%andb_true_iff [= -> H].
    destruct (IH b Ha Hb H) as [-> ->]. auto.
Qed.

(** ** The sanitised pattern *)

(** X5.  The sanitised pattern has no [@] and no [/], is as long as the
    pattern, leaves a pattern without these characters alone, and
    sanitising twice changes nothing more. *)
Theorem safe_pattern_clean (pattern : string) :
  PyStr.count "@" (safe_pattern pattern) = 0%nat
  /\ PyStr.count "/" (safe_pattern pattern) = 0%nat
  /\ String.length (safe_pattern pattern) = String.length pattern
  /\ safe_pattern (safe_pattern pattern) = safe_pattern pattern
  /\ (PyStr.count "@" pattern = 0%nat -> PyStr.count "/" pattern = 0%nat ->
      safe_pattern pattern = pattern).
Proof.
  rewrite !safe_pattern_sanitized.
  destruct (sanitized_clean pattern) as (Hat & Hslash & Hlen).
  assert (forall p, PyStr.count "@" p = 0%nat -> PyStr.count "/" p = 0%nat ->
                    sanitized p = p) as Hid.
  { induction p as [| c p IH]; [reflexivity |].
    cbn [PyStr.count sanitized].
    destruct (Ascii.eqb c "@"); [discriminate |].
    destruct (Ascii.eqb c "/"); [discriminate |].
    cbn [orb]. intros H1 H2. rewrite IH by assumption. reflexivity. }
  repeat split; auto.
Qed.

(** ** The artifact path *)

Lemma count_cons_zero (c d : ascii) (s : string) :
  PyStr.count c (String d s) = 0%nat ->
  Ascii.eqb d c = false /\ PyStr.count c s = 0%nat.
Proof.
  cbn [PyStr.count]. destruct (Ascii.eqb d c); intros H.
  - cbn [Nat.add] in H. discriminate.
  - split; [reflexivity | exact H].
Qed.

Lemma no_slash_found (t : string) :
  PyStr.count "/" t = 0%nat ->
  existsb (Ascii.eqb "/") (list_ascii_of_string t) = false.
Proof.
  induction t as [| d t IH]; [reflexivity |].
  intros [Hd Ht]%count_cons_zero.
  cbn [list_ascii_of_string existsb].
  rewrite (Ascii.eqb_sym "/" d), Hd. apply IH. exact Ht.
Qed.

Lemma basename_no_slash (s : string) :
  PyStr.count "/" s = 0%nat -> basename s = s.
Proof.
  destruct s as [| c s]; [reflexivity |].
  intros [Hc Hs]%count_cons_zero.
  cbn [basename]. rewrite (no_slash_found s Hs), Hc. reflexivity.
Qed.

Lemma slash_found (a s : string) :
  existsb (Ascii.eqb "/") (list_ascii_of_string (a +:+ String "/" s)) = true.
Proof.
  induction a as [| c a IH]; simpl; [reflexivity |].
  rewrite IH. apply orb_true_r.
Qed.

Lemma basename_after_slash (a s : string) :
  PyStr.count "/" s = 0%nat -> basename (a +:+ String "/" s) = s.
Proof.
  intros Hs. induction a as [| c a IH].
  - change (EmptyString +:+ String "/" s) with (String "/" s).
    cbn [basename]. rewrite (no_slash_found s Hs). reflexivity.
  - change (String c a +:+ String "/" s) with (String c (a +:+ String "/" s)).
    cbn [basename]. rewrite slash_found. exact IH.
Qed.

Lemma ends_with_slash_split (a : string) :
  ends_with_slash a = true -> exists a', a = a' +:+ String "/" EmptyString.
Proof.
  induction a as [| c a IH]; [discriminate |].
  destruct a as [| d a].
  - cbn. intros ->%Ascii.eqb_eq. exists EmptyString. reflexivity.
  - intros H. destruct (IH H) as [a' ->]. exists (String c a'). reflexivity.
Qed.

Lemma artifact_filename_shape (seq_no : nat) (pattern : string) :
  PyStr.count "/" (artifact_filename (Z.of_nat seq_no) pattern) = 0%nat
  /\ starts_with_slash (artifact_filename (Z.of_nat seq_no) pattern) = false.
Proof.
  unfold artifact_filename.
  rewrite format_06d_nat, safe_pattern_sanitized.
  split; [| reflexivity].
  destruct (sanitized_clean pattern) as (_ & Hslash & _).
  rewrite !count_app, Hslash.
  rewrite (digits_no_slash _ (zero_padded6_digits seq_no)). reflexivity.
Qed.

Lemma artifact_path_shape (self : fuzzer) (i : nat) (pattern : string) :
  let filename := artifact_filename (Z.of_nat i) pattern in
  PyStr.count "/" filename = 0%nat
  /\ basename (artifact_path self i pattern) = filename
  /\ exists sep,
       (sep = EmptyString \/ sep = "/"%string)
       /\ artifact_path self i pattern = curl_folder self +:+ sep +:+ filename.
Proof.
  intros filename.
  destruct (artifact_filename_shape i pattern) as [Hcount Hstart].
  fold filename in Hcount, Hstart.
  split; [exact Hcount |].
  unfold artifact_path, path_join. fold filename. rewrite Hstart.
  destruct (String.eqb (curl_folder self) EmptyString) eqn:Hempty.
  - apply String.eqb_eq in Hempty. rewrite Hempty. cbn [orb].
    split; [apply basename_no_slash; exact Hcount |].
    exists EmptyString. auto.
  - cbn [orb]. destruct (ends_with_slash (curl_folder self)) eqn:Hends.
    + split; [| exists EmptyString; auto].
      destruct (ends_with_slash_split _ Hends) as [a' ->].
      rewrite append_assoc. apply basename_after_slash. exact Hcount.
    + split; [| exists "/"%string; auto].
      apply basename_after_slash. exact Hcount.
Qed.

(** X3.  A pattern cannot steer the artifact out of the folder.  The file
    name holds no [/], whatever the pattern; the path is the folder, a
    separator if the folder does not end in one, and the file name; and
    [os.path.basename] of the path is the file name. *)
Theorem artifact_path_inside_folder (self : fuzzer) (i : nat)
    (pattern : string) :
  let filename := artifact_filename (Z.of_nat i) pattern in
  PyStr.count "/" filename = 0%nat
  /\ basename (artifact_path self i pattern) = filename
  /\ exists sep,
       (sep = EmptyString \/ sep = "/"%string)
       /\ artifact_path self i pattern = curl_folder self +:+ sep +:+ filename.
Proof. apply artifact_path_shape. Qed.

(** The path determines the sequence number. *)
Lemma artifact_path_inj (self : fuzzer) (i j : nat) (p q : string) :
  artifact_path self i p = artifact_path self j q -> i = j.
Proof.
  unfold artifact_path, path_join.
  destruct (artifact_filename_shape i p) as [_ ->].
  destruct (artifact_filename_shape j q) as [_ ->].
  assert (artifact_filename (Z.of_nat i) p = artifact_filename (Z.of_nat j) q
          -> i = j) as Hname.
  { unfold artifact_filename. rewrite !format_06d_nat.
    intros H. apply (append_inv_head "response_") in H.
    apply digits_field_unique in H as [Hpad _];
      [| apply zero_padded6_digits ..].
    pose proof (zero_padded6_value i) as Hi.
    rewrite Hpad, zero_padded6_value in Hi. injection Hi. lia. }
  destruct (String.eqb (curl_folder self) EmptyString
            || ends_with_slash (curl_folder self)).
  - intros H%append_inv_head. exact (Hname H).
  - intros H%append_inv_head. apply (append_inv_head "/") in H.
    exact (Hname H).
Qed.

(** ** Files written by a run *)

Lemma written_paths_app (tr1 tr2 : list event) :
  written_paths (tr1 ++ tr2) = written_paths tr1 ++ written_paths tr2.
Proof.
  induction tr1 as [| e tr1 IH]; [reflexivity |].
  destruct e; cbn [app written_paths]; rewrite IH; reflexivity.
Qed.

Lemma iteration_written self w total i pattern :
  written_paths (trace (iteration self w total i pattern initial).2)
  = if answered_and_saved w then [artifact_path self i pattern] else [].
Proof.
  split_world w; unfold answered_and_saved; run; split_ifs; reflexivity.
Qed.

(** From the empty state, the loop is its first iteration followed by the
    rest. *)
Lemma fuzz_loop_unfold self world total i pattern rest :
  (fuzz_loop self world total i (pattern :: rest) initial).2
  = extend (iteration self (world i) total i pattern initial).2
      (if interrupted (world i) then initial
       else (fuzz_loop self world total (S i) rest initial).2).
Proof.
  rewrite fuzz_loop_cons. cbv zeta.
  destruct (iteration self (world i) total i pattern initial) as [fl d].
  cbn [snd]. destruct d as [rs tr].
  destruct (interrupted (world i)).
  - cbn [snd]. unfold extend, initial. cbn. rewrite !app_nil_r. reflexivity.
  - rewrite (framed_fuzz_loop self world total (S i) rest). cbn [snd].
    unfold extend, initial. cbn. reflexivity.
Qed.

Lemma fuzz_loop_written self world total patterns i :
  let paths :=
    written_paths (trace (fuzz_loop self world total i patterns initial).2) in
  Forall (fun path => exists j p, (i <= j)%nat /\ path = artifact_path self j p)
         paths
  /\ NoDup paths.
Proof.
  revert i. induction patterns as [| pattern rest IH]; intros i paths.
  - subst paths. cbn. split; constructor.
  - subst paths. rewrite fuzz_loop_unfold. unfold extend. cbn [trace].
    rewrite written_paths_app, iteration_written.
    assert (Forall (fun path => exists j p,
                        (S i <= j)%nat /\ path = artifact_path self j p)
              (written_paths
                 (trace (if interrupted (world i) then initial
                         else (fuzz_loop self world total (S i) rest
                                 initial).2)))
            /\ NoDup (written_paths
                 (trace (if interrupted (world i) then initial
                         else (fuzz_loop self world total (S i) rest
                                 initial).2)))) as [Hlater Hnodup].
    { destruct (interrupted (world i)); [cbn; split; constructor |].
      apply IH. }
    destruct (answered_and_saved (world i)); cbn [app].
    + split.
      * constructor; [exists i, pattern; split; [lia | reflexivity] |].
        eapply Forall_impl; [exact Hlater |].
        intros path (j & p & Hj & ->). exists j, p. split; [lia | reflexivity].
      * apply NoDup_cons_2; [| exact Hnodup].
        intros Hin. rewrite Forall_forall in Hlater.
        destruct (Hlater _ Hin) as (j & p & Hj & Heq).
        apply artifact_path_inj in Heq. lia.
    + split; [| exact Hnodup].
      eapply Forall_impl; [exact Hlater |].
      intros path (j & p & Hj & ->). exists j, p. split; [lia | reflexivity].
Qed.

(** ** The shape of a whole run *)

Lemma save_results_interrupted self rw s :
  on_dump rw = Interrupted ->
  save_results self rw s = (inl KeyboardInterrupt, s).
Proof.
  intros Hdump. destruct s as [rs tr].
  unfold save_results, try_except, bind, get_results, io. rewrite Hdump.
  reflexivity.
Qed.

Lemma report_events_are_report self rw rs :
  forallb is_report (dump_events self rw rs ++ summary_events self rw rs)
  = true.
Proof.
  rewrite forallb_app. unfold dump_events, summary_events.
  rewrite !forallb_app.
  assert (forall (A : Type) (line : A -> string) (items : list A),
             forallb is_report (map (fun item => Print (line item)) items)
             = true) as Hrows.
  { intros A line items. induction items as [| x items IH]; [reflexivity |].
    exact IH. }
  rewrite Hrows. destruct (on_dump rw); reflexivity.
Qed.

Section RunShape.

Variable rng : Type.
Variable randbelow : nat -> rng -> nat * rng.

(** Up to the report, a run whose patterns are generated is the banner
    and the loop. *)
Lemma fuzz_server_to_report self g world rw s patterns g' :
  random_patterns rng randbelow (max_patterns self) g = Some (patterns, g') ->
  let s1 :=
    extend s
      {| results := [];
         trace :=
           [Print "Generating random patterns...";
            Print ("Starting RANDOM fuzzing with "
                   +:+ PyStr.str (Z.of_nat (length patterns)) +:+ " patterns");
            Print ("Target: " +:+ base_url self);
            Print ("Curl responses saved to: " +:+ curl_folder self +:+ "/");
            Print (PyStr.repeat_char "-" 80)] |} in
  let s2 := (fuzz_loop self world (length patterns) 1 patterns s1).2 in
  fuzz_server rng randbelow self g world rw s
  = (save_results self rw ;; print_summary self rw) s2.
Proof.
  intros Hgen s1 s2.
  assert (generate_random_patterns rng randbelow self g s
          = (inr patterns,
             extend s {| results := [];
                         trace := [Print "Generating random patterns..."] |}))
    as Hpatterns.
  { unfold generate_random_patterns.
    rewrite (bind_run _ _ _ _ _ (print_run _ s)), Hgen. reflexivity. }
  assert (fuzz_loop self world (length patterns) 1 patterns s1 = (inr tt, s2))
    as Hloop.
  { unfold s2. rewrite (surjective_pairing (fuzz_loop _ _ _ _ _ s1)) at 1.
    rewrite fuzz_loop_returns. reflexivity. }
  unfold fuzz_server.
  rewrite (bind_run _ _ _ _ _ Hpatterns).
  repeat (erewrite bind_run; [| apply print_run]).
  rewrite !extend_assoc. unfold extend at 2 3 4 5. cbn [results trace app].
  fold s1. rewrite (bind_run _ _ _ _ _ Hloop). reflexivity.
Qed.

(** Whatever happens, a run is console lines, then the loop over the
    generated patterns, then the report (which the user may cut). *)
Lemma fuzz_server_shape self g world rw s :
  exists patterns before after,
    (fuzz_server rng randbelow self g world rw s).2
    = extend
        (extend (extend s {| results := []; trace := before |})
           (fuzz_loop self world (length patterns) 1 patterns initial).2)
        {| results := []; trace := after |}
    /\ forallb is_report before = true
    /\ forallb is_report after = true.
Proof.
  destruct (random_patterns rng randbelow (max_patterns self) g)
    as [[patterns g'] |] eqn:Hgen.
  - exists patterns.
    exists [Print "Generating random patterns...";
            Print ("Starting RANDOM fuzzing with "
                   +:+ PyStr.str (Z.of_nat (length patterns)) +:+ " patterns");
            Print ("Target: " +:+ base_url self);
            Print ("Curl responses saved to: " +:+ curl_folder self +:+ "/");
            Print (PyStr.repeat_char "-" 80)].
    assert (on_dump rw = Interrupted \/ on_dump rw <> Interrupted)
      as [Hdump | Hdump]
      by (destruct (on_dump rw); [right | right | left]; congruence).
    + exists []. split; [| split; reflexivity].
      rewrite (fuzz_server_to_report self g world rw s patterns g' Hgen).
      cbv zeta. unfold bind.
      rewrite save_results_interrupted by exact Hdump.
      cbn [snd].
      rewrite (framed_fuzz_loop self world (length patterns) 1 patterns
                 (extend s _)).
      cbn [snd]. rewrite extend_nothing. reflexivity.
    + eexists. split; [| split; [reflexivity | apply report_events_are_report]].
      rewrite (fuzz_server_run rng randbelow self g world rw s patterns g'
                 Hgen Hdump).
      cbv zeta. cbn [snd].
      rewrite (framed_fuzz_loop self world (length patterns) 1 patterns
                 (extend s _)).
      cbn [snd]. reflexivity.
  - exists [], [Print "Generating random patterns..."], [].
    split; [| split; reflexivity].
    unfold fuzz_server, generate_random_patterns.
    unfold bind at 1. unfold bind at 1. rewrite print_run, Hgen.
    cbn [snd fuzz_loop ret]. rewrite !extend_nothing. reflexivity.
Qed.

End RunShape.

Lemma written_paths_report (tr : list event) :
  forallb is_report tr = true -> written_paths tr = [].
Proof.
  induction tr as [| e tr IH]; [reflexivity |].
  destruct e; cbn; try discriminate; exact IH.
Qed.

Lemma filter_get_report (tr : list event) :
  forallb is_report tr = true -> List.filter is_get tr = [].
Proof.
  induction tr as [| e tr IH]; [reflexivity |].
  destruct e; cbn; try discriminate; exact IH.
Qed.

(** X4.  No artifact of a run is overwritten by a later one: the paths of
    the files a run writes are pairwise different, whatever the patterns
    and whatever happens. *)
Theorem artifacts_never_overwritten (rng : Type)
    (randbelow : nat -> rng -> nat * rng) (self : fuzzer) (g : rng)
    (world : nat -> iteration_world) (rw : report_world) :
  NoDup (written_paths
           (trace (fuzz_server rng randbelow self g world rw initial).2)).
Proof.
  destruct (fuzz_server_shape rng randbelow self g world rw initial)
    as (patterns & before & after & -> & Hbefore & Hafter).
  unfold extend. cbn [trace].
  change (trace initial) with (@nil event). cbn [app].
  rewrite !written_paths_app.
  rewrite (written_paths_report before Hbefore),
    (written_paths_report after Hafter), app_nil_r.
  apply fuzz_loop_written.
Qed.

(** ** What the summary counts *)

Lemma iteration_saved_count self w total i pattern :
  let d := (iteration self w total i pattern initial).2 in
  length (curl_files (results d)) = length (written_paths (trace d))
  /\ (length (results d) <= length (List.filter is_get (trace d)))%nat.
Proof.
  split_world w; run; split_ifs; split; cbn; try reflexivity; lia.
Qed.

Lemma fuzz_loop_saved_count self world total patterns i :
  let d := (fuzz_loop self world total i patterns initial).2 in
  length (curl_files (results d)) = length (written_paths (trace d))
  /\ (length (results d) <= length (List.filter is_get (trace d)))%nat.
Proof.
  revert i. induction patterns as [| pattern rest IH]; intros i d.
  - subst d. cbn. split; [reflexivity | lia].
  - subst d. rewrite fuzz_loop_unfold. unfold extend. cbn [results trace].
    unfold curl_files. rewrite written_paths_app, !List.filter_app, !length_app.
    destruct (iteration_saved_count self (world i) total i pattern)
      as [Hsaved Hget].
    unfold curl_files in Hsaved. rewrite Hsaved.
    destruct (interrupted (world i)).
    + cbn. split; lia.
    + destruct (IH (S i)) as [IHsaved IHget].
      unfold curl_files in IHsaved. rewrite IHsaved. split; lia.
Qed.

(** X16.  The summary never counts a saved artifact that was not written:
    the number it prints as "Curl files saved" is at most the number of
    artifact writes the run completed, and a run never holds more records
    than it sent requests. *)
Theorem saved_count_bounded (rng : Type)
    (randbelow : nat -> rng -> nat * rng) (self : fuzzer) (g : rng)
    (world : nat -> iteration_world) (rw : report_world) :
  let s' := (fuzz_server rng randbelow self g world rw initial).2 in
  (length (curl_files (results s')) <= length (written_paths (trace s')))%nat
  /\ (length (results s') <= length (List.filter is_get (trace s')))%nat.
Proof.
  destruct (fuzz_server_shape rng randbelow self g world rw initial)
    as (patterns & before & after & Hshape & Hbefore & Hafter).
  cbv zeta. rewrite Hshape. unfold extend. cbn [results trace].
  change (results initial) with (@nil record).
  change (trace initial) with (@nil event). cbn [app].
  rewrite app_nil_r, !written_paths_app, !List.filter_app, !length_app.
  rewrite (written_paths_report before Hbefore),
    (written_paths_report after Hafter),
    (filter_get_report before Hbefore), (filter_get_report after Hafter).
  destruct (fuzz_loop_saved_count self world (length patterns) patterns 1)
    as [Hsaved Hget].
  cbn [length app]. rewrite Hsaved. split; lia.
Qed.

(** ** The requests of a run *)

Lemma iteration_request self w total i pattern :
  List.filter is_get (trace (iteration self w total i pattern initial).2)
  = [request_of self pattern].
Proof. split_world w; run; split_ifs; reflexivity. Qed.

(** X1.  An iteration sends at most one request, and a request it sends
    is the GET of the base URL followed at once by the base64 text of the
    pattern, with a timeout of 5 and redirects not followed: no request is
    repeated and no other address is asked for. *)
Theorem at_most_one_request_per_iteration (self : fuzzer)
    (w : iteration_world) (total i : nat) (pattern : string) (s : state) :
  List.filter is_get (emitted s (iteration self w total i pattern s).2)
  `sublist_of`
  [HttpGet (base_url self +:+ Base64.b64encode (PyStr.encode pattern))
     5 false].
Proof.
  rewrite (framed_iteration self w total i pattern s). cbn [snd].
  rewrite emitted_extend, iteration_request. reflexivity.
Qed.

Lemma fuzz_loop_requests self world total patterns i :
  exists k,
    List.filter is_get (trace (fuzz_loop self world total i patterns initial).2)
    = map (request_of self) (take k patterns)
    /\ ((forall j, (i <= j < i + length patterns)%nat ->
                   interrupted (world j) = false) ->
        k = length patterns).
Proof.
  revert i. induction patterns as [| pattern rest IH]; intros i.
  - exists 0%nat. split; reflexivity.
  - rewrite fuzz_loop_unfold. unfold extend. cbn [trace].
    rewrite List.filter_app, iteration_request.
    destruct (interrupted (world i)) eqn:Hint.
    + exists 1%nat. split; [reflexivity |].
      intros Hrun. rewrite Hrun in Hint by (cbn; lia). discriminate.
    + destruct (IH (S i)) as (k & Hk & Hall).
      exists (S k). rewrite Hk. split; [reflexivity |].
      intros Hrun. cbn [length]. f_equal. apply Hall.
      intros j Hj. apply Hrun. cbn [length]. lia.
Qed.

(** X6.  The requests of the loop follow the patterns: the sequence of
    requests sent is a prefix of the sequence of the patterns' requests, so
    no pattern is skipped, repeated or taken out of order. *)
Theorem requests_follow_patterns (self : fuzzer)
    (world : nat -> iteration_world) (total i : nat)
    (patterns : list string) (s : state) :
  List.filter is_get
    (emitted s (fuzz_loop self world total i patterns s).2)
  `prefix_of` map (request_of self) patterns.
Proof.
  rewrite (framed_fuzz_loop self world total i patterns s). cbn [snd].
  rewrite emitted_extend.
  destruct (fuzz_loop_requests self world total patterns i) as (k & -> & _).
  exists (map (request_of self) (drop k patterns)).
  rewrite <- map_app, take_drop. reflexivity.
Qed.

(** ** The records of a run *)

Lemma iteration_record_pattern self w total i pattern :
  map pattern_of (results (iteration self w total i pattern initial).2)
  = if recorded w then [Some (VStr pattern)] else [].
Proof. split_world w; run; split_ifs; reflexivity. Qed.

Lemma fuzz_loop_record_patterns self world total patterns i :
  let rs := results (fuzz_loop self world total i patterns initial).2 in
  map pattern_of rs `sublist_of` map (fun p => Some (VStr p)) patterns
  /\ ((forall j, (i <= j < i + length patterns)%nat ->
                 interrupted (world j) = false /\ recorded (world j) = true) ->
      map pattern_of rs = map (fun p => Some (VStr p)) patterns).
Proof.
  revert i. induction patterns as [| pattern rest IH]; intros i rs.
  - subst rs. cbn. split; [constructor | reflexivity].
  - subst rs. rewrite fuzz_loop_unfold. unfold extend. cbn [results].
    rewrite map_app, iteration_record_pattern. cbn [map].
    destruct (IH (S i)) as [IHsub IHall]. cbv zeta in IHsub, IHall.
    split.
    + destruct (interrupted (world i)).
      * change (results initial) with (@nil record). cbn [map].
        rewrite app_nil_r.
        destruct (recorded (world i));
          [apply sublist_skip | ]; apply sublist_nil_l.
      * destruct (recorded (world i)); cbn [app];
          [apply sublist_skip | apply sublist_cons]; exact IHsub.
    + intros Hrun.
      destruct (Hrun i ltac:(cbn [length]; lia)) as [-> ->]. cbn [app].
      f_equal. apply IHall. intros j Hj. apply Hrun. cbn [length]. lia.
Qed.

(** X7.  The records of the loop follow the patterns: read in order, the
    [pattern] fields of the records the loop appends are patterns of the
    list in their order, each at most once per position. *)
Theorem records_follow_patterns (self : fuzzer)
    (world : nat -> iteration_world) (total i : nat)
    (patterns : list string) (s : state) :
  exists added,
    results (fuzz_loop self world total i patterns s).2 = results s ++ added
    /\ map pattern_of added
       `sublist_of` map (fun p => Some (VStr p)) patterns.
Proof.
  exists (results (fuzz_loop self world total i patterns initial).2).
  split.
  - rewrite (framed_fuzz_loop self world total i patterns s). reflexivity.
  - apply fuzz_loop_record_patterns.
Qed.

(** X8.  A loop in which the user never interrupts and every request is
    answered or fails in transport sends the request of every pattern, in
    order, and appends exactly one record per pattern, in order. *)
Theorem complete_run (self : fuzzer) (world : nat -> iteration_world)
    (total i : nat) (patterns : list string) (s : state) :
  (forall j, (i <= j < i + length patterns)%nat ->
             interrupted (world j) = false /\ recorded (world j) = true) ->
  let s' := (fuzz_loop self world total i patterns s).2 in
  List.filter is_get (emitted s s') = map (request_of self) patterns
  /\ exists added,
       results s' = results s ++ added
       /\ length added = length patterns
       /\ map pattern_of added = map (fun p => Some (VStr p)) patterns.
Proof.
  intros Hrun s'. subst s'.
  rewrite (framed_fuzz_loop self world total i patterns s). cbn [snd].
  rewrite emitted_extend. split.
  - destruct (fuzz_loop_requests self world total patterns i)
      as (k & -> & Hk).
    rewrite Hk by (intros j Hj; apply Hrun; exact Hj).
    rewrite firstn_all. reflexivity.
  - exists (results (fuzz_loop self world total i patterns initial).2).
    split; [reflexivity |].
    destruct (fuzz_loop_record_patterns self world total patterns i)
      as [_ Hall].
    specialize (Hall Hrun). split; [| exact Hall].
    apply (f_equal length) in Hall. rewrite !length_map in Hall. exact Hall.
Qed.

Lemma complete_run_witness :
  (forall j, (1 <= j < 1 + length ["@@@"; "1@2@3@4"])%nat ->
             interrupted (timeout_then_ok j) = false
             /\ recorded (timeout_then_ok j) = true)
  /\ List.filter is_get
       (emitted initial
          (fuzz_loop (sample_fuzzer None) timeout_then_ok 2 1
             ["@@@"; "1@2@3@4"] initial).2)
     = map (request_of (sample_fuzzer None)) ["@@@"; "1@2@3@4"].
Proof.
  assert (forall j, (1 <= j < 1 + length ["@@@"; "1@2@3@4"])%nat ->
                    interrupted (timeout_then_ok j) = false
                    /\ recorded (timeout_then_ok j) = true) as Hrun.
  { intros j Hj. cbn [length] in Hj.
    assert (j = 1 \/ j = 2)%nat as [-> | ->] by lia; split; reflexivity. }
  split; [exact Hrun |].
  exact (proj1 (complete_run (sample_fuzzer None) timeout_then_ok 2 1
                  ["@@@"; "1@2@3@4"] initial Hrun)).
Defined.

(** ** Failures inside one iteration *)

(** X9.  An unexpected exception of the request is logged and nothing
    else: no record is appended, no file is written, no pause is made, and
    the loop goes on with the next pattern. *)
Theorem unexpected_error_isolated (self : fuzzer)
    (world : nat -> iteration_world) (total i : nat) (pattern : string)
    (rest : list string) (s : state) (e : string) :
  on_get (world i) = GetCrashed e ->
  exists s',
    iteration self (world i) total i pattern s = (inr Continue, s')
    /\ results s' = results s
    /\ List.filter (fun ev => is_write ev || is_sleep ev) (emitted s s') = []
    /\ In (Print (nl +:+ progress i total +:+ " UNEXPECTED ERROR: " +:+ e))
          (emitted s s')
    /\ In (Print ("Pattern: '" +:+ pattern +:+ "'")) (emitted s s')
    /\ fuzz_loop self world total i (pattern :: rest) s
       = fuzz_loop self world total (S i) rest s'.
Proof.
  intros Hget.
  assert (exists d,
             iteration self (world i) total i pattern initial
             = (inr Continue, d)
             /\ results d = []
             /\ List.filter (fun ev => is_write ev || is_sleep ev) (trace d) = []
             /\ In (Print (nl +:+ progress i total +:+ " UNEXPECTED ERROR: "
                           +:+ e)) (trace d)
             /\ In (Print ("Pattern: '" +:+ pattern +:+ "'")) (trace d))
    as (d & Hrun & Hres & Hquiet & Hlog & Hpat).
  { destruct (world i) as [gr sv sl t1 t2]. cbn [on_get] in Hget. subst gr.
    eexists. split; [reflexivity |].
    split; [reflexivity |]. split; [reflexivity |].
    split; cbn; tauto. }
  exists (extend s d). split.
  { rewrite (framed_iteration self (world i) total i pattern s), Hrun.
    reflexivity. }
  rewrite emitted_extend. unfold extend at 1. cbn [results].
  rewrite Hres, app_nil_r.
  repeat (split; [assumption || reflexivity |]).
  rewrite fuzz_loop_cons. cbv zeta.
  unfold interrupted. rewrite Hget, Hrun. reflexivity.
Qed.

Lemma unexpected_error_isolated_witness :
  on_get (crash_then_interrupt 1) = GetCrashed "boom"
  /\ exists s',
       iteration (sample_fuzzer None) (crash_then_interrupt 1) 2 1 "@@@" initial
       = (inr Continue, s')
       /\ results s' = results initial
       /\ List.filter (fun ev => is_write ev || is_sleep ev)
            (emitted initial s') = []
       /\ In (Print (nl +:+ progress 1 2 +:+ " UNEXPECTED ERROR: " +:+ "boom"))
             (emitted initial s')
       /\ In (Print ("Pattern: '" +:+ "@@@" +:+ "'")) (emitted initial s')
       /\ fuzz_loop (sample_fuzzer None) crash_then_interrupt 2 1
            ("@@@" :: ["1@2@3@4"]) initial
          = fuzz_loop (sample_fuzzer None) crash_then_interrupt 2 2
              ["1@2@3@4"] s'.
Proof.
  split; [reflexivity |].
  exact (unexpected_error_isolated (sample_fuzzer None) crash_then_interrupt
           2 1 "@@@" ["1@2@3@4"] initial "boom" eq_refl).
Defined.

(** X10.  A user interrupt during the artifact write is not swallowed by
    the recorder, which catches [Exception] only: [save_curl_response]
    raises [KeyboardInterrupt], the iteration ends the loop, and the
    response that had arrived leaves no record. *)
Theorem interrupted_save_leaves_no_record (self : fuzzer)
    (world : nat -> iteration_world) (total i : nat) (pattern : string)
    (rest : list string) (s : state) (r : response) :
  on_get (world i) = Responded r ->
  on_save (world i) = Interrupted ->
  (forall s0 enc,
     (save_curl_response self (world i) pattern enc r (Z.of_nat i) s0).1
     = inl KeyboardInterrupt)
  /\ exists s',
       iteration self (world i) total i pattern s = (inr Break, s')
       /\ results s' = results s
       /\ fuzz_loop self world total i (pattern :: rest) s = (inr tt, s').
Proof.
  intros Hget Hsave. split.
  { intros s0 enc. unfold save_curl_response, try_except, bind, io.
    rewrite Hsave. reflexivity. }
  assert (exists d,
             iteration self (world i) total i pattern initial = (inr Break, d)
             /\ results d = [])
    as (d & Hrun & Hres).
  { destruct (world i) as [gr sv sl t1 t2]. cbn [on_get on_save] in Hget, Hsave.
    subst gr sv. eexists. split; reflexivity. }
  exists (extend s d). split.
  { rewrite (framed_iteration self (world i) total i pattern s), Hrun.
    reflexivity. }
  unfold extend at 1. cbn [results].
  rewrite Hres, app_nil_r.
  split; [reflexivity |].
  rewrite fuzz_loop_cons. cbv zeta.
  unfold interrupted. rewrite Hget, Hsave, Hrun. reflexivity.
Qed.

Lemma interrupted_save_leaves_no_record_witness :
  on_get (interrupted_save 1) = Responded (sample_response 200 [79; 75])
  /\ on_save (interrupted_save 1) = Interrupted
  /\ exists s',
       iteration (sample_fuzzer None) (interrupted_save 1) 2 1 "@@@" initial
       = (inr Break, s')
       /\ results s' = results initial
       /\ fuzz_loop (sample_fuzzer None) interrupted_save 2 1
            ("@@@" :: ["1@2@3@4"]) initial
          = (inr tt, s').
Proof.
  split; [reflexivity |]. split; [reflexivity |].
  exact (proj2 (interrupted_save_leaves_no_record (sample_fuzzer None)
                  interrupted_save 2 1 "@@@" ["1@2@3@4"] initial
                  (sample_response 200 [79; 75]) eq_refl eq_refl)).
Defined.

(** ** An answered request *)

Lemma string_length_app (a b : string) :
  String.length (a +:+ b) = (String.length a + String.length b)%nat.
Proof.
  induction a as [| c a IH]; [reflexivity |].
  change (S (String.length (a +:+ b))
          = S (String.length a + String.length b)).
  rewrite IH. reflexivity.
Qed.

Lemma artifact_path_nonempty (self : fuzzer) (i : nat) (pattern : string) :
  String.eqb (artifact_path self i pattern) EmptyString = false.
Proof.
  destruct (artifact_path_shape self i pattern) as (_ & _ & sep & _ & ->).
  apply String.eqb_neq. intros Hempty.
  apply (f_equal String.length) in Hempty.
  rewrite !string_length_app in Hempty.
  unfold artifact_filename in Hempty.
  rewrite string_length_app in Hempty. cbn in Hempty. lia.
Qed.

(** X2.  When the request is answered and the artifact written, the
    iteration writes exactly one file, at the artifact path of its
    sequence number, holding the artifact text; it reports the file name
    on the console; and it appends exactly one record, which holds the
    pattern, the encoded pattern, the URL, the status code, the length of
    the body, that path and the timestamp, and no [error]. *)
Theorem answered_request_saved_and_recorded (self : fuzzer)
    (w : iteration_world) (total i : nat) (pattern : string) (s : state)
    (r : response) :
  on_get w = Responded r ->
  on_save w = Completed ->
  let encoded_pattern := Base64.b64encode (PyStr.encode pattern) in
  let s' := (iteration self w total i pattern s).2 in
  List.filter is_write (emitted s s')
  = [WriteFile (artifact_path self i pattern)
       (artifact_text self w pattern encoded_pattern r)]
  /\ In (Print ("Curl saved: " +:+ artifact_filename (Z.of_nat i) pattern))
        (emitted s s')
  /\ exists rec,
       results s' = results s ++ [rec]
       /\ rec !! "pattern" = Some (VStr pattern)
       /\ rec !! "encoded_pattern" = Some (VStr encoded_pattern)
       /\ rec !! "url" = Some (VStr (base_url self +:+ encoded_pattern))
       /\ rec !! "status_code" = Some (VInt (status_code r))
       /\ rec !! "content_length"
          = Some (VInt (Z.of_nat (length (content r))))
       /\ rec !! "curl_file" = Some (VStr (artifact_path self i pattern))
       /\ rec !! "timestamp" = Some (VStr (recorded_at w))
       /\ rec !! "error" = None.
Proof.
  intros Hget Hsave encoded_pattern s'. subst s'.
  rewrite (framed_iteration self w total i pattern s). cbn [snd].
  rewrite emitted_extend.
  pose proof (artifact_path_nonempty self i pattern) as Hpath.
  destruct (artifact_path_shape self i pattern) as (_ & Hbase & _).
  unfold artifact_path in Hpath, Hbase.
  destruct w as [gr sv sl t1 t2]. cbn [on_get on_save] in Hget, Hsave.
  subst gr sv. unfold extend. cbn [results].
  destruct sl; run; rewrite Hpath, Hbase; split_ifs;
    (split; [reflexivity |]); (split; [cbn; tauto |]);
    eexists; (split; [reflexivity |]); repeat split; reflexivity.
Qed.

Lemma answered_request_saved_and_recorded_witness :
  on_get (timeout_then_ok 2) = Responded (sample_response 200 [79; 75])
  /\ on_save (timeout_then_ok 2) = Completed
  /\ In (Print "Curl saved: response_000002_1_2_3_4.txt")
        (emitted initial
           (iteration (sample_fuzzer None) (timeout_then_ok 2) 2 2 "1@2@3@4"
              initial).2).
Proof.
  split; [reflexivity |]. split; [reflexivity |].
  exact (proj1 (proj2 (answered_request_saved_and_recorded (sample_fuzzer None)
                         (timeout_then_ok 2) 2 2 "1@2@3@4" initial
                         (sample_response 200 [79; 75]) eq_refl eq_refl))).
Defined.

(** ** The report *)

Lemma dumped_app (tr1 tr2 : list event) :
  dumped (tr1 ++ tr2) = dumped tr1 ++ dumped tr2.
Proof.
  induction tr1 as [| e tr1 IH]; [reflexivity |].
  destruct e; cbn [app dumped]; rewrite IH; reflexivity.
Qed.

Lemma iteration_quiet self w total i pattern :
  let tr := trace (iteration self w total i pattern initial).2 in
  dumped tr = [] /\ existsb is_summary_title tr = false.
Proof. split_world w; run; split_ifs; split; reflexivity. Qed.

Lemma fuzz_loop_quiet self world total patterns i :
  let tr := trace (fuzz_loop self world total i patterns initial).2 in
  dumped tr = [] /\ existsb is_summary_title tr = false.
Proof.
  revert i. induction patterns as [| pattern rest IH]; intros i tr.
  - subst tr. split; reflexivity.
  - subst tr. rewrite fuzz_loop_unfold. unfold extend. cbn [trace].
    rewrite dumped_app, existsb_app.
    destruct (iteration_quiet self (world i) total i pattern) as [-> ->].
    destruct (interrupted (world i)); [split; reflexivity |].
    apply IH.
Qed.

Section ReportFacts.

Variable rng : Type.
Variable randbelow : nat -> rng -> nat * rng.
Hypothesis randbelow_lt :
  forall (n : nat) (g : rng), (0 < n)%nat -> ((randbelow n g).1 < n)%nat.

(** The state a run reaches before its report. *)
Lemma before_report self g world rw :
  exists s2,
    fuzz_server rng randbelow self g world rw initial
    = (save_results self rw ;; print_summary self rw) s2
    /\ dumped (trace s2) = []
    /\ existsb is_summary_title (trace s2) = false.
Proof.
  destruct (random_patterns_total rng randbelow randbelow_lt
              (max_patterns self) g) as (ps & g' & Hgen & _ & _).
  eexists. split.
  { apply (fuzz_server_to_report rng randbelow self g world rw initial ps g'
             Hgen). }
  rewrite (framed_fuzz_loop self world (length ps) 1 ps (extend initial _)).
  cbn [snd]. unfold extend. cbn [trace].
  change (trace initial) with (@nil event). cbn [app].
  destruct (fuzz_loop_quiet self world (length ps) ps 1) as [Hdump Htitle].
  cbv zeta in Hdump, Htitle.
  split.
  - change (dumped (?a :: ?b :: ?c :: ?d :: ?e :: ?tl)) with (dumped tl).
    exact Hdump.
  - change (existsb is_summary_title (?a :: ?b :: ?c :: ?d :: ?e :: ?tl))
      with (existsb is_summary_title tl).
    exact Htitle.
Qed.

End ReportFacts.

Lemma summary_events_title self rw rs :
  existsb is_summary_title (summary_events self rw rs) = true
  /\ dumped (summary_events self rw rs) = [].
Proof.
  unfold summary_events. split; [reflexivity |].
  rewrite !dumped_app.
  assert (forall (A : Type) (line : A -> string) (items : list A),
             dumped (map (fun item => Print (line item)) items) = [])
    as Hrows.
  { intros A line items. induction items as [| x items IH]; [reflexivity |].
    exact IH. }
  rewrite Hrows. reflexivity.
Qed.

(** X13.  When the log can be written, the run writes it exactly once, to
    the configured path, and the document is the final result list: every
    record of the run, in order. *)
Theorem log_holds_all_records (rng : Type)
    (randbelow : nat -> rng -> nat * rng)
    (randbelow_lt :
       forall (n : nat) (g : rng), (0 < n)%nat -> ((randbelow n g).1 < n)%nat)
    (self : fuzzer) (g : rng) (world : nat -> iteration_world)
    (rw : report_world) :
  on_dump rw = Completed ->
  let s' := (fuzz_server rng randbelow self g world rw initial).2 in
  dumped (trace s') = [results s']
  /\ In (DumpJson (log_file self) (results s')) (trace s').
Proof.
  intros Hdump.
  destruct (before_report rng randbelow randbelow_lt self g world rw)
    as (s2 & -> & Hnone & _).
  cbv zeta.
  rewrite (bind_run _ _ _ _ _
             (save_results_run self rw s2 ltac:(congruence))).
  rewrite print_summary_run, extend_assoc.
  unfold dump_events. rewrite Hdump.
  unfold extend. cbn [snd results trace app].
  rewrite !app_nil_r, dumped_app, Hnone. cbn [app dumped].
  destruct (summary_events_title self rw (results s2)) as [_ Hquiet].
  rewrite Hquiet.
  split; [reflexivity |].
  apply in_or_app. right. left. reflexivity.
Qed.

Lemma log_holds_all_records_witness :
  (forall (n g : nat), (0 < n)%nat -> ((lcg n g).1 < n)%nat)
  /\ on_dump report_ok = Completed
  /\ let s' := (fuzz_server nat lcg (sample_fuzzer (Some 2)) 42%nat
                  timeout_then_ok report_ok initial).2 in
     dumped (trace s') = [results s']
     /\ In (DumpJson (log_file (sample_fuzzer (Some 2))) (results s'))
           (trace s').
Proof.
  split; [exact lcg_lt |]. split; [reflexivity |].
  exact (log_holds_all_records nat lcg lcg_lt (sample_fuzzer (Some 2)) 42%nat
           timeout_then_ok report_ok eq_refl).
Defined.

(** X14.  A failure to write the log does not end the run: the run returns
    normally, the failure is reported on the console, and the summary is
    still printed after it, from the records in memory. *)
Theorem report_write_failure_recovered (rng : Type)
    (randbelow : nat -> rng -> nat * rng)
    (randbelow_lt :
       forall (n : nat) (g : rng), (0 < n)%nat -> ((randbelow n g).1 < n)%nat)
    (self : fuzzer) (g : rng) (world : nat -> iteration_world)
    (rw : report_world) (e : string) :
  on_dump rw = Failed e ->
  let out := fuzz_server rng randbelow self g world rw initial in
  out.1 = inr tt
  /\ exists before,
       trace out.2
       = before ++ [Print ("Error saving results: " +:+ e)]
                ++ summary_events self rw (results out.2).
Proof.
  intros Hdump.
  destruct (before_report rng randbelow randbelow_lt self g world rw)
    as (s2 & -> & _ & _).
  cbv zeta.
  rewrite (bind_run _ _ _ _ _
             (save_results_run self rw s2 ltac:(congruence))).
  rewrite print_summary_run, extend_assoc.
  unfold dump_events. rewrite Hdump.
  unfold extend. cbn [fst snd results trace app].
  rewrite !app_nil_r. split; [reflexivity |].
  exists (trace s2). reflexivity.
Qed.

Lemma report_write_failure_recovered_witness :
  (forall (n g : nat), (0 < n)%nat -> ((lcg n g).1 < n)%nat)
  /\ on_dump report_failing = Failed "Permission denied"
  /\ (fuzz_server nat lcg (sample_fuzzer (Some 2)) 42%nat timeout_then_ok
        report_failing initial).1 = inr tt.
Proof.
  split; [exact lcg_lt |]. split; [reflexivity |].
  exact (proj1 (report_write_failure_recovered nat lcg lcg_lt
                  (sample_fuzzer (Some 2)) 42%nat timeout_then_ok
                  report_failing "Permission denied" eq_refl)).
Defined.

(** X15.  A user interrupt during the write of the log is not recovered
    inside the run: [fuzz_server] raises [KeyboardInterrupt] and the
    summary is never printed. *)
Theorem report_interrupt_skips_summary (rng : Type)
    (randbelow : nat -> rng -> nat * rng)
    (randbelow_lt :
       forall (n : nat) (g : rng), (0 < n)%nat -> ((randbelow n g).1 < n)%nat)
    (self : fuzzer) (g : rng) (world : nat -> iteration_world)
    (rw : report_world) :
  on_dump rw = Interrupted ->
  let out := fuzz_server rng randbelow self g world rw initial in
  out.1 = inl KeyboardInterrupt
  /\ existsb is_summary_title (trace out.2) = false.
Proof.
  intros Hdump.
  destruct (before_report rng randbelow randbelow_lt self g world rw)
    as (s2 & -> & _ & Htitle).
  cbv zeta. unfold bind.
  rewrite (save_results_interrupted self rw s2 Hdump). cbn [fst snd].
  auto.
Qed.

Lemma report_interrupt_skips_summary_witness :
  (forall (n g : nat), (0 < n)%nat -> ((lcg n g).1 < n)%nat)
  /\ on_dump report_interrupted = Interrupted
  /\ (fuzz_server nat lcg (sample_fuzzer (Some 2)) 42%nat timeout_then_ok
        report_interrupted initial).1 = inl KeyboardInterrupt.
Proof.
  split; [exact lcg_lt |]. split; [reflexivity |].
  exact (proj1 (report_interrupt_skips_summary nat lcg lcg_lt
                  (sample_fuzzer (Some 2)) 42%nat timeout_then_ok
                  report_interrupted eq_refl)).
Defined.

(** ** The interrupted run and its report *)

Section CompletedReport.

Variable rng : Type.
Variable randbelow : nat -> rng -> nat * rng.
Hypothesis randbelow_lt :
  forall (n : nat) (g : rng), (0 < n)%nat -> ((randbelow n g).1 < n)%nat.


End CompletedReport.



(** ** The table of status codes *)

Lemma count_code_lookup (acc : gmap Z nat) (r : record) (c : Z) :
  count_code acc r !! c
  = if has_code c r then Some (default 0 (acc !! c) + 1)%nat else acc !! c.
Proof.
  unfold count_code, has_code.
  destruct (r !! "status_code") as [[txt | c' |] |]; try reflexivity.
  destruct (Z.eqb_spec c' c) as [-> | Hne].
  - apply lookup_insert_eq.
  - apply lookup_insert_ne. exact Hne.
Qed.

Lemma foldl_count_code_lookup (l : list record) (acc : gmap Z nat) (c : Z) :
  foldl count_code acc l !! c
  = match length (List.filter (has_code c) l) with
    | O => acc !! c
    | S n => Some (default 0 (acc !! c) + S n)%nat
    end.
Proof.
  revert acc. induction l as [| r l IH]; intros acc; [reflexivity |].
  cbn [foldl List.filter]. rewrite IH, count_code_lookup.
  destruct (has_code c r); cbn [length]; [| reflexivity].
  destruct (length (List.filter (has_code c) l)) as [| n].
  - reflexivity.
  - change (default 0%nat (Some ?x)) with x. f_equal. lia.
Qed.

Lemma has_code_successful (c : Z) (rs : list record) :
  List.filter (has_code c) (successful rs) = List.filter (has_code c) rs.
Proof.
  unfold successful. induction rs as [| r rs IH]; [reflexivity |].
  cbn [List.filter].
  destruct (has_key "status_code" r) eqn:Hkey; cbn [List.filter].
  - rewrite IH. reflexivity.
  - rewrite IH.
    assert (has_code c r = false) as ->; [| reflexivity].
    unfold has_code. unfold has_key in Hkey.
    destruct (r !! "status_code"); [| reflexivity].
    apply bool_decide_eq_false in Hkey. exfalso. apply Hkey. eauto.
Qed.

(** X17.  The table of status codes counts right: a status code that no
    record holds has no row, and the row of any other status code is the
    number of records that hold it. *)
Theorem status_codes_count (rs : list record) (c : Z) :
  status_codes rs !! c
  = match length (List.filter (has_code c) rs) with
    | O => None
    | S n => Some (S n)
    end.
Proof.
  unfold status_codes.
  rewrite foldl_count_code_lookup, has_code_successful, lookup_empty.
  reflexivity.
Qed.

Lemma item_le_transitive : Transitive item_le.
Proof. intros a b c. unfold item_le. lia. Qed.

Lemma item_le_total : Total item_le.
Proof. intros a b. unfold item_le. lia. Qed.

Lemma sorted_distinct_keys (l : list (Z * nat)) :
  StronglySorted item_le l -> NoDup (l.*1) ->
  StronglySorted (fun a b => a.1 < b.1) l.
Proof.
  induction 1 as [| x l Hsorted IH Hall]; intros Hnodup; [constructor |].
  cbn [fmap list_fmap] in Hnodup. apply NoDup_cons in Hnodup as [Hx Hl].
  constructor; [apply IH; exact Hl |].
  rewrite Forall_forall in Hall |- *. intros y Hy.
  specialize (Hall y Hy). unfold item_le in Hall.
  assert (x.1 <> y.1); [| lia].
  intros Heq. apply Hx. rewrite Heq.
  apply list_elem_of_fmap. exists y. split; [reflexivity | exact Hy].
Qed.

(** X18.  The rows of the status code table are printed in strictly
    ascending order of the status code, one row for every code of the
    table with its count, and no other row. *)
Theorem sorted_items_ascending (m : gmap Z nat) :
  StronglySorted (fun a b => a.1 < b.1) (sorted_items m)
  /\ forall c n, (c, n) ∈ sorted_items m <-> m !! c = Some n.
Proof.
  unfold sorted_items.
  pose proof (merge_sort_Permutation item_le (map_to_list m)) as Hperm.
  split.
  - apply sorted_distinct_keys.
    + apply (@StronglySorted_merge_sort _ item_le _
               item_le_transitive item_le_total).
    + rewrite Hperm. apply NoDup_fst_map_to_list.
  - intros c n. rewrite Hperm. apply elem_of_map_to_list.
Qed.

(** ** The generated sample *)

(** X19.  The final shuffle loses and adds nothing: the list the generator
    returns is a rearrangement of the patterns it sampled. *)
Theorem shuffle_keeps_sample (rng : Type)
    (randbelow : nat -> rng -> nat * rng)
    (randbelow_lt :
       forall (n : nat) (g : rng), (0 < n)%nat -> ((randbelow n g).1 < n)%nat)
    (cap : option Z) (g : rng) :
  exists sampled g1 patterns g',
    generate_loop rng randbelow (Z.to_nat (total_patterns cap)) [] g
    = Some (sampled, g1)
    /\ random_patterns rng randbelow cap g = Some (patterns, g')
    /\ patterns ≡ₚ sampled.
Proof.
  unfold random_patterns.
  generalize (Z.to_nat (total_patterns cap)) as count. intros count.
  destruct (generate_loop_total rng randbelow randbelow_lt count [] g)
    as (ps & g1 & Hgen & _ & _).
  rewrite Hgen. cbn -[shuffle].
  destruct (shuffle_total rng randbelow randbelow_lt ps g1)
    as (ps' & g' & Hsh & Hperm).
  exists ps, g1, ps', g'. rewrite Hsh. auto.
Qed.

Lemma shuffle_keeps_sample_witness :
  (forall (n g : nat), (0 < n)%nat -> ((lcg n g).1 < n)%nat)
  /\ exists sampled g1 patterns g',
       generate_loop nat lcg (Z.to_nat (total_patterns (Some 5))) [] 42%nat
       = Some (sampled, g1)
       /\ random_patterns nat lcg (Some 5) 42%nat = Some (patterns, g')
       /\ patterns ≡ₚ sampled.
Proof.
  split; [exact lcg_lt |].
  exact (shuffle_keeps_sample nat lcg lcg_lt (Some 5) 42%nat).
Defined.

(** ** Requests and patterns *)

Lemma utf8_char_head (c : ascii) :
  let n := Z.of_N (N_of_ascii c) in
  (n < 128 /\ PyStr.utf8_char c = [n])
  \/ (128 <= n < 256
      /\ PyStr.utf8_char c = [192 + n / 64; 128 + n mod 64]).
Proof.
  cbv zeta. unfold PyStr.utf8_char.
  assert (0 <= Z.of_N (N_of_ascii c) < 256) as Hc.
  { pose proof (N_ascii_bounded c). lia. }
  set (n := Z.of_N (N_of_ascii c)) in *.
  destruct (n <? 128) eqn:Hlt.
  - left. apply Z.ltb_lt in Hlt. auto.
  - right. apply Z.ltb_ge in Hlt. split; [lia |].
    rewrite shiftr_6, land_63.
    replace 192 with (3 ≪ 6) at 1 by reflexivity.
    replace 128 with (2 ≪ 6) at 1 by reflexivity.
    rewrite !lor_shiftl_6 by (Z.div_mod_to_equations; lia).
    reflexivity.
Qed.

Lemma ascii_of_code (c d : ascii) :
  Z.of_N (N_of_ascii c) = Z.of_N (N_of_ascii d) -> c = d.
Proof.
  intros H. apply N2Z.inj in H.
  rewrite <- (ascii_N_embedding c), <- (ascii_N_embedding d), H.
  reflexivity.
Qed.

(** The UTF-8 bytes determine the string. *)
Lemma encode_inj (p q : string) : PyStr.encode p = PyStr.encode q -> p = q.
Proof.
  revert q. induction p as [| c p IH]; intros [| d q]; cbn [PyStr.encode].
  - reflexivity.
  - destruct (utf8_char_head d) as [[_ ->] | [_ ->]]; discriminate.
  - destruct (utf8_char_head c) as [[_ ->] | [_ ->]]; discriminate.
  - destruct (utf8_char_head c) as [[Hc ->] | [Hc ->]];
      destruct (utf8_char_head d) as [[Hd ->] | [Hd ->]];
      cbn [app].
    + intros [= H1 H2].
      rewrite (ascii_of_code c d H1), (IH q H2). reflexivity.
    + intros [= H1 _]. Z.div_mod_to_equations. lia.
    + intros [= H1 _]. Z.div_mod_to_equations. lia.
    + intros [= H1 H2 H3].
      assert (Z.of_N (N_of_ascii c) = Z.of_N (N_of_ascii d)) as Hcd
        by (Z.div_mod_to_equations; lia).
      rewrite (ascii_of_code c d Hcd), (IH q H3). reflexivity.
Qed.

(** X20.  Two different patterns are never sent as the same request: the
    request determines the pattern. *)
Theorem distinct_patterns_distinct_requests (self : fuzzer) (p q : string) :
  p <> q -> request_of self p <> request_of self q.
Proof.
  intros Hne. unfold request_of. intros [= H%append_inv_head].
  apply Hne, encode_inj.
  pose proof (b64_roundtrip (PyStr.encode p) (encode_bytes p)) as Hp.
  rewrite H, (b64_roundtrip (PyStr.encode q) (encode_bytes q)) in Hp.
  injection Hp as Hp. symmetry. exact Hp.
Qed.

Lemma distinct_patterns_distinct_requests_witness :
  "@@@"%string <> "1@2@3@4"%string
  /\ request_of (sample_fuzzer None) "@@@"
     <> request_of (sample_fuzzer None) "1@2@3@4".
Proof.
  assert ("@@@"%string <> "1@2@3@4"%string) as Hne by discriminate.
  split; [exact Hne |].
  exact (distinct_patterns_distinct_requests (sample_fuzzer None) "@@@"
           "1@2@3@4" Hne).
Defined.

(** ** The entry point *)

Lemma init_run (sw : startup_world) url d log cap s :
  folder_exists sw = true \/ on_makedirs sw = Completed ->
  init sw url d log cap s
  = (inr (new_fuzzer url d log cap),
     {| results := [];
        trace := trace s
                 ++ (if folder_exists sw then []
                     else [Print "Created folder: curl"]) |}).
Proof.
  intros Hok. destruct s as [rs tr].
  unfold init, bind, reset_results, outcome, print, emit, ret.
  destruct (folder_exists sw).
  - cbn [results trace]. rewrite app_nil_r. reflexivity.
  - destruct Hok as [Hok | Hok]; [discriminate |]. rewrite Hok. reflexivity.
Qed.

Lemma init_fails (sw : startup_world) url d log cap s :
  folder_exists sw = false -> on_makedirs sw <> Completed ->
  init sw url d log cap s
  = (inl (match on_makedirs sw with
          | Failed e => OtherException e
          | _ => KeyboardInterrupt
          end),
     {| results := []; trace := trace s |}).
Proof.
  intros Hmissing Hfail. destruct s as [rs tr].
  unfold init, bind, reset_results, outcome, raise. rewrite Hmissing.
  destruct (on_makedirs sw); [congruence | reflexivity ..].
Qed.

Section MainFacts.

Variable rng : Type.
Variable randbelow : nat -> rng -> nat * rng.

(** What [main] has printed when it reaches its [try] block. *)
Lemma main_to_try sw g world rw s :
  folder_exists sw = true \/ on_makedirs sw = Completed ->
  exists s1 banner,
    forallb is_report banner = true
    /\ dumped banner = []
    /\ s1 = {| results := []; trace := trace s ++ banner |}
    /\ main rng randbelow sw g world rw s
       = try_except
           (input sw "Press Enter to start fuzzing..." ;;
            print (nl +:+ "Starting fuzzing (Ctrl+C to stop)...") ;;
            fuzz_server rng randbelow
              (new_fuzzer BASE_URL DELAY "fuzzer_log.json" MAX_PATTERNS)
              g world rw)
           (fun x =>
              match x with
              | KeyboardInterrupt =>
                  Some (print (nl +:+ "Fuzzing cancelled by user."))
              | _ => Some (print ("Fatal error: " +:+ exn_str x))
              end)
           s1.
Proof.
  intros Hok. eexists. eexists.
  split; [| split; [| split; [reflexivity |]]]; cycle 2.
  - unfold main.
    rewrite (bind_run _ _ _ _ _ (init_run sw _ _ _ _ s Hok)).
    do 5 (erewrite bind_run; [| apply print_run]).
    change (truthy MAX_PATTERNS) with false. cbv iota.
    erewrite bind_run; [| reflexivity].
    do 3 (erewrite bind_run; [| apply print_run]).
    unfold extend. cbn [results trace app].
    rewrite <- !app_assoc. cbn [app]. reflexivity.
  - destruct (folder_exists sw); reflexivity.
  - destruct (folder_exists sw); reflexivity.
Qed.

End MainFacts.

Section MainReport.

Variable rng : Type.
Variable randbelow : nat -> rng -> nat * rng.
Hypothesis randbelow_lt :
  forall (n : nat) (g : rng), (0 < n)%nat -> ((randbelow n g).1 < n)%nat.

(** The state in which [main], started with the prompt confirmed, reaches
    the report of the run. *)
Lemma main_to_report sw g world rw :
  folder_exists sw = true \/ on_makedirs sw = Completed ->
  on_input sw = Completed ->
  exists s2,
    existsb is_summary_title (trace s2) = false
    /\ main rng randbelow sw g world rw initial
       = try_except
           (save_results
              (new_fuzzer BASE_URL DELAY "fuzzer_log.json" MAX_PATTERNS) rw ;;
            print_summary
              (new_fuzzer BASE_URL DELAY "fuzzer_log.json" MAX_PATTERNS) rw)
           (fun x =>
              match x with
              | KeyboardInterrupt =>
                  Some (print (nl +:+ "Fuzzing cancelled by user."))
              | _ => Some (print ("Fatal error: " +:+ exn_str x))
              end)
           s2.
Proof.
  intros Hok Hinput.
  set (self := new_fuzzer BASE_URL DELAY "fuzzer_log.json" MAX_PATTERNS).
  destruct (random_patterns_total rng randbelow randbelow_lt
              (max_patterns self) g) as (ps & g' & Hgen & _ & _).
  eexists. split; cycle 1.
  - unfold main.
    rewrite (bind_run _ _ _ _ _ (init_run sw _ _ _ _ initial Hok)).
    do 5 (erewrite bind_run; [| apply print_run]).
    change (truthy MAX_PATTERNS) with false. cbv iota.
    erewrite bind_run; [| reflexivity].
    do 3 (erewrite bind_run; [| apply print_run]).
    fold self. unfold try_except at 1. unfold input.
    unfold bind at 1. unfold bind at 1.
    rewrite print_run. unfold outcome. rewrite Hinput. unfold ret.
    unfold bind at 1. rewrite print_run.
    rewrite (fuzz_server_to_report rng randbelow self g world rw _ ps g' Hgen).
    cbv zeta. unfold try_except. reflexivity.
  - rewrite (framed_fuzz_loop self world (length ps) 1 ps).
    cbn [snd]. unfold extend. cbn [trace app].
    rewrite !existsb_app.
    destruct (fuzz_loop_quiet self world (length ps) ps 1) as [_ Htitle].
    cbv zeta in Htitle. rewrite Htitle.
    destruct (folder_exists sw); reflexivity.
Qed.

End MainReport.

(** X21.  A user interrupt during the write of the log ends the program
    quietly: the interrupt leaves [fuzz_server] and is caught by [main],
    which prints its closing line and returns normally; the summary is
    never printed. *)
Theorem main_cancelled_at_log_write (rng : Type)
    (randbelow : nat -> rng -> nat * rng)
    (randbelow_lt :
       forall (n : nat) (g : rng), (0 < n)%nat -> ((randbelow n g).1 < n)%nat)
    (sw : startup_world) (g : rng) (world : nat -> iteration_world)
    (rw : report_world) :
  folder_exists sw = true \/ on_makedirs sw = Completed ->
  on_input sw = Completed ->
  on_dump rw = Interrupted ->
  let out := main rng randbelow sw g world rw initial in
  out.1 = inr tt
  /\ existsb is_summary_title (trace out.2) = false
  /\ last (trace out.2) = Some (Print (nl +:+ "Fuzzing cancelled by user.")).
Proof.
  intros Hok Hinput Hdump.
  destruct (main_to_report rng randbelow randbelow_lt sw g world rw Hok Hinput)
    as (s2 & Htitle & ->).
  cbv zeta. unfold try_except, bind.
  rewrite (save_results_interrupted _ rw s2 Hdump).
  rewrite print_run. unfold extend. cbn [fst snd trace].
  rewrite existsb_app, Htitle, last_snoc.
  repeat split; reflexivity.
Qed.

Lemma main_cancelled_at_log_write_witness :
  (forall (n g : nat), (0 < n)%nat -> ((lcg n g).1 < n)%nat)
  /\ (folder_exists startup_ok = true \/ on_makedirs startup_ok = Completed)
  /\ on_input startup_ok = Completed
  /\ on_dump report_interrupted = Interrupted
  /\ (main nat lcg startup_ok 42%nat timeout_then_ok report_interrupted
        initial).1 = inr tt.
Proof.
  split; [exact lcg_lt |]. split; [left; reflexivity |].
  split; [reflexivity |]. split; [reflexivity |].
  exact (proj1 (main_cancelled_at_log_write nat lcg lcg_lt startup_ok 42%nat
                  timeout_then_ok report_interrupted (or_introl eq_refl)
                  eq_refl eq_refl)).
Defined.

(** X22.  The folder is created before the [try] block of [main]: when the
    folder is missing and cannot be created, the exception leaves [main]
    uncaught, and nothing has been printed, asked or sent. *)
Theorem main_folder_failure_escapes (rng : Type)
    (randbelow : nat -> rng -> nat * rng) (sw : startup_world) (g : rng)
    (world : nat -> iteration_world) (rw : report_world) (s : state) :
  folder_exists sw = false ->
  on_makedirs sw <> Completed ->
  main rng randbelow sw g world rw s
  = (inl (match on_makedirs sw with
          | Failed e => OtherException e
          | _ => KeyboardInterrupt
          end),
     {| results := []; trace := trace s |}).
Proof.
  intros Hmissing Hfail. unfold main. unfold bind at 1.
  rewrite (init_fails sw _ _ _ _ s Hmissing Hfail). reflexivity.
Qed.

Lemma main_folder_failure_escapes_witness :
  folder_exists startup_no_folder = false
  /\ on_makedirs startup_no_folder <> Completed
  /\ main nat lcg startup_no_folder 42%nat timeout_then_ok report_ok initial
     = (inl (OtherException "Permission denied"), initial).
Proof.
  split; [reflexivity |]. split; [discriminate |].
  exact (main_folder_failure_escapes nat lcg startup_no_folder 42%nat
           timeout_then_ok report_ok initial eq_refl ltac:(discriminate)).
Defined.

(** X23.  When the user does not confirm the start prompt (an interrupt or
    the end of the input), the run never starts: [main] returns with one
    closing line, having sent no request, written no file and no log, and
    holding no record. *)
Theorem main_cancelled_at_prompt (rng : Type)
    (randbelow : nat -> rng -> nat * rng) (sw : startup_world) (g : rng)
    (world : nat -> iteration_world) (rw : report_world) (s : state) :
  folder_exists sw = true \/ on_makedirs sw = Completed ->
  on_input sw <> Completed ->
  let out := main rng randbelow sw g world rw s in
  out.1 = inr tt
  /\ results out.2 = []
  /\ forallb is_report (emitted s out.2) = true
  /\ dumped (emitted s out.2) = []
  /\ last (trace out.2)
     = Some (Print (match on_input sw with
                    | Failed e => "Fatal error: " +:+ e
                    | _ => nl +:+ "Fuzzing cancelled by user."
                    end)).
Proof.
  intros Hok Hinput.
  destruct (main_to_try rng randbelow sw g world rw s Hok)
    as (s1 & banner & Hreport & Hdump & -> & ->).
  cbv zeta. unfold emitted.
  unfold try_except, input, bind, print, emit, outcome, raise.
  cbn [results trace].
  destruct (on_input sw) as [| e |]; [congruence | |];
    cbn [fst snd results trace exn_str];
    rewrite <- !app_assoc, drop_app_length, !forallb_app, !dumped_app,
      Hreport, Hdump, !app_assoc, last_snoc;
    repeat split; reflexivity.
Qed.

Lemma main_cancelled_at_prompt_witness :
  (folder_exists startup_cancelled = true
   \/ on_makedirs startup_cancelled = Completed)
  /\ on_input startup_cancelled <> Completed
  /\ (main nat lcg startup_cancelled 42%nat timeout_then_ok report_ok
        initial).1 = inr tt.
Proof.
  split; [right; reflexivity |]. split; [discriminate |].
  exact (proj1 (main_cancelled_at_prompt nat lcg startup_cancelled 42%nat
                  timeout_then_ok report_ok initial (or_intror eq_refl)
                  ltac:(discriminate))).
Defined.

(** ** The pause *)

(** X12.  An iteration pauses at most once, for the configured delay, and
    it does so exactly when its request is answered, the user does not
    interrupt the artifact write, and the pause itself completes; after a
    transport failure or an unexpected exception there is no pause. *)
Theorem pause_exactly_after_recorded_response (self : fuzzer)
    (w : iteration_world) (total i : nat) (pattern : string) (s : state) :
  List.filter is_sleep (emitted s (iteration self w total i pattern s).2)
  = if pauses w then [Sleep (delay self)] else [].
Proof.
  rewrite (framed_iteration self w total i pattern s). cbn [snd].
  rewrite emitted_extend.
  split_world w; unfold pauses; run; split_ifs; reflexivity.
Qed.

(** X11.  A pause that fails does not lose the response: the record is
    already appended when the pause is attempted, the failure is logged as
    an unexpected error, and the loop goes on with the next pattern. *)
Theorem pause_failure_keeps_record (self : fuzzer)
    (world : nat -> iteration_world) (total i : nat) (pattern : string)
    (rest : list string) (s : state) (r : response) (e : string) :
  on_get (world i) = Responded r ->
  on_save (world i) <> Interrupted ->
  on_sleep (world i) = Failed e ->
  exists rec s',
    iteration self (world i) total i pattern s = (inr Continue, s')
    /\ results s' = results s ++ [rec]
    /\ rec !! "status_code" = Some (VInt (status_code r))
    /\ List.filter is_sleep (emitted s s') = []
    /\ In (Print (nl +:+ progress i total +:+ " UNEXPECTED ERROR: " +:+ e))
          (emitted s s')
    /\ fuzz_loop self world total i (pattern :: rest) s
       = fuzz_loop self world total (S i) rest s'.
Proof.
  intros Hget Hsave Hsleep.
  assert (exists rec d,
             iteration self (world i) total i pattern initial
             = (inr Continue, d)
             /\ results d = [rec]
             /\ rec !! "status_code" = Some (VInt (status_code r))
             /\ List.filter is_sleep (trace d) = []
             /\ In (Print (nl +:+ progress i total +:+ " UNEXPECTED ERROR: "
                           +:+ e)) (trace d))
    as (rec & d & Hrun & Hres & Hcode & Hquiet & Hlog).
  { destruct (world i) as [gr sv sl t1 t2].
    cbn [on_get on_save on_sleep] in Hget, Hsave, Hsleep. subst gr sl.
    destruct sv; [| | congruence]; run; split_ifs;
      eexists; eexists; (split; [reflexivity |]); (split; [reflexivity |]);
      (split; [reflexivity |]); (split; [reflexivity |]);
      cbn [In]; tauto. }
  exists rec, (extend s d). split.
  { rewrite (framed_iteration self (world i) total i pattern s), Hrun.
    reflexivity. }
  rewrite emitted_extend. unfold extend at 1. cbn [results]. rewrite Hres.
  repeat (split; [assumption || reflexivity |]).
  rewrite fuzz_loop_cons. cbv zeta.
  assert (interrupted (world i) = false) as ->.
  { unfold interrupted. rewrite Hget, Hsleep.
    destruct (on_save (world i)); congruence. }
  rewrite Hrun. reflexivity.
Qed.

Lemma pause_failure_keeps_record_witness :
  on_get (failing_pause 1) = Responded (sample_response 200 [79; 75])
  /\ on_save (failing_pause 1) <> Interrupted
  /\ on_sleep (failing_pause 1) = Failed "sleep length must be non-negative"
  /\ exists rec s',
       iteration (sample_fuzzer None) (failing_pause 1) 2 1 "@@@" initial
       = (inr Continue, s')
       /\ results s' = results initial ++ [rec]
       /\ rec !! "status_code" = Some (VInt 200)
       /\ List.filter is_sleep (emitted initial s') = []
       /\ In (Print (nl +:+ progress 1 2 +:+ " UNEXPECTED ERROR: "
                     +:+ "sleep length must be non-negative"))
             (emitted initial s')
       /\ fuzz_loop (sample_fuzzer None) failing_pause 2 1
            ("@@@" :: ["1@2@3@4"]) initial
          = fuzz_loop (sample_fuzzer None) failing_pause 2 2
              ["1@2@3@4"] s'.
Proof.
  split; [reflexivity |]. split; [discriminate |]. split; [reflexivity |].
  exact (pause_failure_keeps_record (sample_fuzzer None) failing_pause 2 1
           "@@@" ["1@2@3@4"] initial (sample_response 200 [79; 75])
           "sleep length must be non-negative" eq_refl ltac:(discriminate)
           eq_refl).
Defined.
